(** * Olsztyn geoportal plugin: the selection dialog and its host calls

    A shallow embedding of [olsztyn_geoportal.py].  The plugin is a QGIS
    dialog that looks a tile source up in a fixed table, assembles an XYZ
    connection string, asks QGIS for a raster layer and, when QGIS reports
    the layer valid, registers it and moves the map canvas to a fixed
    bounding box around Olsztyn.

    QGIS and Qt are not part of the program.  They are modelled as a
    [Host]: a record that gives the objects the constructors return and
    decides, for every call and the history of calls before it, whether
    the call raises.  Every call the dialog makes is recorded in the
    state, so that statements about "which calls were made, how often
    and with what arguments" are statements about that record. *)

From Stdlib Require Import String Ascii ZArith List Bool Lia DecimalString.
Import ListNotations.
Local Open Scope string_scope.
Local Open Scope Z_scope.

(** ** Python strings, lists and dictionaries *)

(** The escape [\n] of the Python literals. *)
Definition nl : string := String (ascii_of_nat 10) EmptyString.

(** [str(n)] for an integer, as an f-string field formats it. *)
Definition str_of_int (n : Z) : string := NilZero.string_of_int (Z.to_int n).

(** [sep.join(parts)]. *)
Definition join (sep : string) (parts : list string) : string :=
  String.concat sep parts.

(** [s.split(sep)] for a separator of one character: one piece more than
    there are separators, empty pieces kept. *)
Fixpoint split (sep : ascii) (s : string) : list string :=
  match s with
  | EmptyString => [EmptyString]
  | String c rest =>
      if Ascii.eqb c sep then EmptyString :: split sep rest
      else match split sep rest with
           | [] => [String c EmptyString]
           | piece :: pieces => String c piece :: pieces
           end
  end.

(** [needle in hay]. *)
Fixpoint contains (needle hay : string) : bool :=
  if String.prefix needle hay then true
  else match hay with
       | EmptyString => false
       | String _ rest => contains needle rest
       end.

(** A raised instance of [Exception], which is what the handler of
    [download_layer] catches; only its [str()] text is ever read. *)
Record Exn : Type := Exception { str : string }.

Definition is_digit (c : ascii) : bool :=
  let n := nat_of_ascii c in (48 <=? n)%nat && (n <=? 57)%nat.

Fixpoint digits_value (acc : Z) (s : string) : option Z :=
  match s with
  | EmptyString => Some acc
  | String c rest =>
      if is_digit c
      then digits_value (10 * acc + Z.of_nat (nat_of_ascii c - 48)) rest
      else None
  end.

(** [float(s)] on the plain decimal numerals, the only spelling the
    dialog ever passes.  Such a numeral below 2^53 denotes an integer
    that is a float exactly, so the value is kept as that integer.  Any
    other text is answered with the [ValueError] of [float]. *)
Definition float (s : string) : Exn + Z :=
  match s with
  | EmptyString => inl (Exception "could not convert string to float: ''")
  | _ => match digits_value 0 s with
         | Some v => inr v
         | None => inl (Exception ("could not convert string to float: '" ++ s ++ "'"))
         end
  end.

Arguments float : simpl never.
Arguments split : simpl never.

(** A [dict] literal with string keys, in insertion order. *)
Definition dict (V : Type) : Type := list (string * V).

(** [d.get(key)]. *)
Fixpoint get {V : Type} (d : dict V) (key : string) : option V :=
  match d with
  | [] => None
  | (k, v) :: rest => if String.eqb k key then Some v else get rest key
  end.

(** [d.keys()]. *)
Definition keys {V : Type} (d : dict V) : list string := map fst d.

(** ** The layer catalog *)

(** One entry of [self.layers]. *)
Record LayerInfo : Type := {
  type : string;
  url : string;
  zmin : Z;
  zmax : Z;
  crs : string;
  info : option string
}.

Definition olsztyn_bbox : string := "2272000,7129000,2288000,7145000".

Definition layers : dict LayerInfo := [
  ("Standardowa mapa OSM",
   {| type := "xyz";
      url := "https://tile.openstreetmap.org/{z}/{x}/{y}.png";
      zmin := 0; zmax := 19; crs := "EPSG:3857";
      info := Some "Standardowa mapa OpenStreetMap z pełnymi detalami" |});
  ("OpenTopoMap (topograficzna)",
   {| type := "xyz";
      url := "https://a.tile.opentopomap.org/{z}/{x}/{y}.png";
      zmin := 0; zmax := 17; crs := "EPSG:3857";
      info := Some "Mapa topograficzna ze szlakiami i warstwicami" |});
  ("CyclOSM (dla rowerzystów)",
   {| type := "xyz";
      url := "https://a.tile-cyclosm.openstreetmap.fr/cyclosm/{z}/{x}/{y}.png";
      zmin := 0; zmax := 20; crs := "EPSG:3857";
      info := Some "Mapa z wyróżnionymi ścieżkami rowerowymi" |});
  ("Humanitarian (humanitarna)",
   {| type := "xyz";
      url := "https://a.tile.openstreetmap.fr/hot/{z}/{x}/{y}.png";
      zmin := 0; zmax := 20; crs := "EPSG:3857";
      info := Some "Mapa humanitarna z wyróżnionymi budynkami" |});
  ("Transport",
   {| type := "xyz";
      url := "https://tile.memomaps.de/tilegen/{z}/{x}/{y}.png";
      zmin := 0; zmax := 18; crs := "EPSG:3857";
      info := Some "Mapa komunikacji publicznej i transportu" |})
].

(** ** Host objects *)

(** What the dialog reads of a [QgsCoordinateReferenceSystem]. *)
Record Crs : Type := { crs_isValid : bool; crs_authid : string }.

(** What the dialog reads of a [QgsRasterLayer]: [isValid()] and
    [error()].  [layer_error] is [None] when [error()] answers an object
    that Python takes for false, and [Some m] when it answers an error
    whose [message()] is [m]. *)
Record RasterLayer : Type := {
  layer_isValid : bool;
  layer_error : option string
}.

(** [QgsRectangle(xmin, ymin, xmax, ymax)]. *)
Record QgsRectangle : Type := {
  xMinimum : Z;
  yMinimum : Z;
  xMaximum : Z;
  yMaximum : Z
}.

(** The [iface] object QGIS hands to a plugin. *)
Inductive QgisInterface : Type := qgis_iface.

(** The calls the dialog makes into Qt and QGIS, with their arguments. *)
Inductive Call : Type :=
| ComboCurrentText
| MsgWarning (title text : string)
| MsgInformation (title text : string)
| MsgCritical (title text : string)
| ProgressSetVisible (visible : bool)
| ProgressSetRange (lo hi : Z)
| NewRasterLayer (uri name provider : string)
| LayerIsValid
| LayerError
| ErrorMessage
| ProjectInstance
| ProjectCrs
| CrsIsValid
| CrsAuthid
| NewCrs (definition : string)
| ProjectSetCrs (c : Crs)
| ProjectAddMapLayer (layer : RasterLayer)
| IfaceMapCanvas
| NewRectangle (xmin ymin xmax ymax : Z)
| CanvasSetDestinationCrs (c : Crs)
| CanvasSetExtent (extent : QgsRectangle)
| CanvasRefresh
| CanvasZoomToFeatureExtent (extent : QgsRectangle)
| DialogAccept.

(** The host application.  [raises history call] is the exception the
    host raises when [call] is made after the calls of [history], if it
    raises one; the two constructors give the objects QGIS builds. *)
Record Host : Type := {
  raises : list Call -> Call -> option Exn;
  QgsRasterLayer : string -> string -> string -> RasterLayer;
  QgsCoordinateReferenceSystem : string -> Crs
}.

(** ** State: the dialog, the project, and the calls made so far *)

Record State : Type := {
  iface : option QgisInterface;
  layer_combo_items : list string;
  layer_combo_text : string;
  progress_bar_visible : bool;
  progress_bar_range : Z * Z;
  accepted : bool;
  project_crs : Crs;
  project_layers : list RasterLayer;
  calls : list Call
}.

Definition record_call (c : Call) (s : State) : State :=
  {| iface := iface s; layer_combo_items := layer_combo_items s;
     layer_combo_text := layer_combo_text s;
     progress_bar_visible := progress_bar_visible s;
     progress_bar_range := progress_bar_range s;
     accepted := accepted s; project_crs := project_crs s;
     project_layers := project_layers s; calls := calls s ++ [c] |}.

Definition set_progress_bar_visible (b : bool) (s : State) : State :=
  {| iface := iface s; layer_combo_items := layer_combo_items s;
     layer_combo_text := layer_combo_text s;
     progress_bar_visible := b;
     progress_bar_range := progress_bar_range s;
     accepted := accepted s; project_crs := project_crs s;
     project_layers := project_layers s; calls := calls s |}.

Definition set_progress_bar_range (lo hi : Z) (s : State) : State :=
  {| iface := iface s; layer_combo_items := layer_combo_items s;
     layer_combo_text := layer_combo_text s;
     progress_bar_visible := progress_bar_visible s;
     progress_bar_range := (lo, hi);
     accepted := accepted s; project_crs := project_crs s;
     project_layers := project_layers s; calls := calls s |}.

Definition set_accepted (s : State) : State :=
  {| iface := iface s; layer_combo_items := layer_combo_items s;
     layer_combo_text := layer_combo_text s;
     progress_bar_visible := progress_bar_visible s;
     progress_bar_range := progress_bar_range s;
     accepted := true; project_crs := project_crs s;
     project_layers := project_layers s; calls := calls s |}.

Definition set_project_crs (c : Crs) (s : State) : State :=
  {| iface := iface s; layer_combo_items := layer_combo_items s;
     layer_combo_text := layer_combo_text s;
     progress_bar_visible := progress_bar_visible s;
     progress_bar_range := progress_bar_range s;
     accepted := accepted s; project_crs := c;
     project_layers := project_layers s; calls := calls s |}.

Definition add_project_layer (l : RasterLayer) (s : State) : State :=
  {| iface := iface s; layer_combo_items := layer_combo_items s;
     layer_combo_text := layer_combo_text s;
     progress_bar_visible := progress_bar_visible s;
     progress_bar_range := progress_bar_range s;
     accepted := accepted s; project_crs := project_crs s;
     project_layers := project_layers s ++ [l]; calls := calls s |}.

Definition set_layer_combo_text (t : string) (s : State) : State :=
  {| iface := iface s; layer_combo_items := layer_combo_items s;
     layer_combo_text := t;
     progress_bar_visible := progress_bar_visible s;
     progress_bar_range := progress_bar_range s;
     accepted := accepted s; project_crs := project_crs s;
     project_layers := project_layers s; calls := calls s |}.

(** [QComboBox.addItem]: the first item added becomes the current one. *)
Definition combo_addItem (t : string) (s : State) : State :=
  {| iface := iface s; layer_combo_items := layer_combo_items s ++ [t];
     layer_combo_text :=
       match layer_combo_items s with [] => t | _ => layer_combo_text s end;
     progress_bar_visible := progress_bar_visible s;
     progress_bar_range := progress_bar_range s;
     accepted := accepted s; project_crs := project_crs s;
     project_layers := project_layers s; calls := calls s |}.

(** ** Statements that may raise *)

Inductive Outcome (A : Type) : Type :=
| Returns (a : A)
| Raises (e : Exn).
Arguments Returns {A} a.
Arguments Raises {A} e.

(** A Python statement: it runs in a state and ends in a state, either
    normally or with an exception.  What was done before an exception
    stays done. *)
Definition M (A : Type) : Type := State -> Outcome A * State.

Definition ret {A : Type} (a : A) : M A := fun s => (Returns a, s).

Definition raise {A : Type} (e : Exn) : M A := fun s => (Raises e, s).

Definition bind {A B : Type} (m : M A) (k : A -> M B) : M B :=
  fun s => match m s with
           | (Returns a, s') => k a s'
           | (Raises e, s') => (Raises e, s')
           end.

Notation "x <- m ;; k" := (bind m (fun x => k))
  (at level 61, m at next level, right associativity).
Notation "m ;; k" := (bind m (fun _ => k))
  (at level 61, right associativity).

(** [try: body  except Exception as e: handler e]. *)
Definition try_except {A : Type} (body : M A) (handler : Exn -> M A) : M A :=
  fun s => match body s with
           | (Returns a, s') => (Returns a, s')
           | (Raises e, s') => handler e s'
           end.

(** [try: body  finally: final].  The final block runs on both ways
    out; an exception of its own replaces the outcome of the body. *)
Definition try_finally {A : Type} (body : M A) (final : M unit) : M A :=
  fun s => match body s with
           | (o, s') => match final s' with
                        | (Returns _, s'') => (o, s'')
                        | (Raises e, s'') => (Raises e, s'')
                        end
           end.

(** Reading an attribute of the dialog. *)
Definition read {A : Type} (f : State -> A) : M A :=
  fun s => (Returns (f s), s).

(** A result of a Python builtin that answers or raises. *)
Definition lift {A : Type} (r : Exn + A) : M A :=
  match r with inl e => raise e | inr a => ret a end.

(** One call into the host: it is recorded, then the host either raises
    or the call takes effect and answers. *)
Definition call {A : Type} (h : Host) (c : Call)
    (effect : State -> State) (answer : State -> A) : M A :=
  fun s => match raises h (calls s) c with
           | Some e => (Raises e, record_call c s)
           | None =>
               let s' := effect (record_call c s) in (Returns (answer s'), s')
           end.

(** A call without effect on the modelled state, and one without an
    answer that is used. *)
Definition same (s : State) : State := s.

Definition nothing (s : State) : unit := tt.

(** ** The dialog *)

(** [OlsztynGeoportalDialog.__init__], as far as [download_layer] reads
    what it builds: the combo box filled from the keys of the catalog,
    the progress bar hidden by [setVisible(False)] (a widget placed in
    the layout would otherwise show with the dialog), the dialog not yet
    accepted.  [project_crs0] and [project_layers0] are the project as
    the dialog finds it. *)
Definition __init__ (iface0 : option QgisInterface) (project_crs0 : Crs)
    (project_layers0 : list RasterLayer) : State :=
  let s0 :=
    {| iface := iface0; layer_combo_items := [];
       layer_combo_text := EmptyString;
       progress_bar_visible := true; progress_bar_range := (0, 100);
       accepted := false; project_crs := project_crs0;
       project_layers := project_layers0; calls := [] |} in
  let s1 := fold_left (fun s layer_name => combo_addItem layer_name s)
                      (keys layers) s0 in
  set_progress_bar_visible false s1.

(** The test of line 175:
    [not project.crs().isValid() or project.crs().authid() == ''],
    with the short cut of [or]. *)
Definition project_crs_is_empty (h : Host) : M bool :=
  c <- call h ProjectCrs same project_crs ;;
  valid <- call h CrsIsValid same (fun _ => crs_isValid c) ;;
  if negb valid then ret true
  else
    c' <- call h ProjectCrs same project_crs ;;
    a <- call h CrsAuthid same (fun _ => crs_authid c') ;;
    ret (String.eqb a EmptyString).

(** Lines 193-214: the view is moved only when the dialog has an
    [iface], and only when the box splits into four pieces. *)
Definition set_view_on_olsztyn (h : Host) : M unit :=
  i <- read iface ;;
  match i with
  | None => ret tt
  | Some _ =>
      call h IfaceMapCanvas same nothing ;;
      let bbox_coords := split "," olsztyn_bbox in
      if Nat.eqb (length bbox_coords) 4 then
        x0 <- lift (float (nth 0 bbox_coords EmptyString)) ;;
        y0 <- lift (float (nth 1 bbox_coords EmptyString)) ;;
        x1 <- lift (float (nth 2 bbox_coords EmptyString)) ;;
        y1 <- lift (float (nth 3 bbox_coords EmptyString)) ;;
        extent <- call h (NewRectangle x0 y0 x1 y1) same
                    (fun _ => {| xMinimum := x0; yMinimum := y0;
                                 xMaximum := x1; yMaximum := y1 |}) ;;
        canvas_crs <-
          call h (NewCrs "EPSG:3857") same
               (fun _ => QgsCoordinateReferenceSystem h "EPSG:3857") ;;
        call h (CanvasSetDestinationCrs canvas_crs) same nothing ;;
        call h (CanvasSetExtent extent) same nothing ;;
        call h CanvasRefresh same nothing ;;
        call h (CanvasZoomToFeatureExtent extent) same nothing
      else ret tt
  end.

(** Lines 219-221: the text of the success notice. *)
Definition success_text (selected_layer : string) (layer_info : LayerInfo)
    (info_text : string) : string :=
  "Warstwa '" ++ selected_layer
  ++ "' została pomyślnie dodana do projektu." ++ nl ++ nl
  ++ "CRS warstwy: " ++ crs layer_info ++ info_text ++ nl ++ nl
  ++ "Widok ustawiony na obszar Olsztyna.".

(** Lines 229-235: the text of the warning for a layer that did not load. *)
Definition failure_text (selected_layer : string) (layer_info : LayerInfo)
    (error_msg : string) : string :=
  "Nie udało się załadować warstwy '" ++ selected_layer ++ "'." ++ nl ++ nl
  ++ "Możliwe przyczyny:" ++ nl
  ++ "• Brak połączenia z internetem" ++ nl
  ++ "• Serwer kafelków tymczasowo niedostępny" ++ nl
  ++ "• Błędny URL serwisu" ++ nl ++ nl
  ++ "Szczegóły: " ++ error_msg ++ nl ++ nl
  ++ "URL: " ++ url layer_info.

(** Line 181: the notice shown when the project got its reference system. *)
Definition crs_notice : string :=
  "Ustawiono CRS projektu na EPSG:3857 (Web Mercator)".

(** Lines 188-190: the additional line of the success notice. *)
Definition info_text_of (layer_info : LayerInfo) : string :=
  match info layer_info with
  | Some i => (nl ++ nl ++ "ℹ️ " ++ i)%string
  | None => EmptyString
  end.

(** Lines 173-223: the branch taken when [layer.isValid()]. *)
Definition layer_loaded (h : Host) (selected_layer : string)
    (layer_info : LayerInfo) (layer : RasterLayer) : M unit :=
  call h ProjectInstance same nothing ;;
  empty <- project_crs_is_empty h ;;
  (if empty then
     target_crs <-
       call h (NewCrs "EPSG:3857") same
            (fun _ => QgsCoordinateReferenceSystem h "EPSG:3857") ;;
     call h (ProjectSetCrs target_crs) (set_project_crs target_crs)
          nothing ;;
     call h (MsgInformation "Informacja" crs_notice) same nothing
   else ret tt) ;;
  call h ProjectInstance same nothing ;;
  call h (ProjectAddMapLayer layer) (add_project_layer layer) nothing ;;
  let info_text := info_text_of layer_info in
  set_view_on_olsztyn h ;;
  call h (MsgInformation "Sukces"
            (success_text selected_layer layer_info info_text))
       same nothing ;;
  call h DialogAccept set_accepted nothing.

(** Lines 225-236: the branch taken when the layer is not valid.
    [layer.error()] is asked once for the test and once more for the
    text; both times it answers for the same layer. *)
Definition layer_failed (h : Host) (selected_layer : string)
    (layer_info : LayerInfo) (layer : RasterLayer) : M unit :=
  e <- call h LayerError same (fun _ => layer_error layer) ;;
  error_msg <-
    match e with
    | Some _ =>
        e' <- call h LayerError same (fun _ => layer_error layer) ;;
        match e' with
        | Some m => call h ErrorMessage same (fun _ => m)
        | None =>
            raise (Exception "'NoneType' object has no attribute 'message'")
        end
    | None => ret "Nieznany błąd"
    end ;;
  call h (MsgWarning "Błąd ładowania warstwy"
            (failure_text selected_layer layer_info error_msg))
       same nothing.

(** Lines 159-167: the connection string handed to [QgsRasterLayer]. *)
Definition connection_string (layer_info : LayerInfo) : string :=
  let url_parts := [
    "type=xyz";
    "url=" ++ url layer_info;
    "zmin=" ++ str_of_int (zmin layer_info);
    "zmax=" ++ str_of_int (zmax layer_info);
    "crs=" ++ crs layer_info
  ] in
  join "&" url_parts.

(** Lines 157-236: the body of the [try]. *)
Definition load_layer (h : Host) (selected_layer : string)
    (layer_info : LayerInfo) : M unit :=
  if String.eqb (type layer_info) "xyz" then
    let url := connection_string layer_info in
    layer <- call h (NewRasterLayer url selected_layer "wms") same
               (fun _ => QgsRasterLayer h url selected_layer "wms") ;;
    valid <- call h LayerIsValid same (fun _ => layer_isValid layer) ;;
    if valid then layer_loaded h selected_layer layer_info layer
    else layer_failed h selected_layer layer_info layer
  else ret tt.

(** Lines 238-243: the handler of [except Exception as e]. *)
Definition unexpected_error (h : Host) (e : Exn) : M unit :=
  call h (MsgCritical "Błąd" ("Wystąpił nieoczekiwany błąd:" ++ nl ++ str e))
       same nothing.

(** Lines 156-246: the [try] statement with its handler and its
    [finally] block. *)
Definition try_load_layer (h : Host) (selected_layer : string)
    (layer_info : LayerInfo) : M unit :=
  try_finally
    (try_except (load_layer h selected_layer layer_info)
                (unexpected_error h))
    (call h (ProgressSetVisible false) (set_progress_bar_visible false)
          nothing).

(** [OlsztynGeoportalDialog.download_layer].  An entry of the catalog is
    a dictionary with six keys, so [not layer_info] holds exactly when
    [get] found nothing. *)
Definition download_layer (h : Host) : M unit :=
  selected_layer <- call h ComboCurrentText same layer_combo_text ;;
  match get layers selected_layer with
  | None => call h (MsgWarning "Błąd" "Nie wybrano warstwy.") same nothing
  | Some layer_info =>
      call h (ProgressSetVisible true) (set_progress_bar_visible true)
           nothing ;;
      call h (ProgressSetRange 0 0) (set_progress_bar_range 0 0) nothing ;;
      try_load_layer h selected_layer layer_info
  end.

(** ** Hosts to run the dialog against *)

(** The test double: no call raises, every layer is valid, and a
    reference system built from an identifier is valid under it. *)
Definition stub_host : Host :=
  {| raises := fun _ _ => None;
     QgsRasterLayer := fun _ _ _ =>
       {| layer_isValid := true; layer_error := None |};
     QgsCoordinateReferenceSystem := fun def =>
       {| crs_isValid := true; crs_authid := def |} |}.

(** A host whose tile server cannot be reached. *)
Definition offline_host : Host :=
  {| raises := fun _ _ => None;
     QgsRasterLayer := fun _ _ _ =>
       {| layer_isValid := false;
          layer_error := Some "Cannot connect to tile server" |};
     QgsCoordinateReferenceSystem := fun def =>
       {| crs_isValid := true; crs_authid := def |} |}.

(** A host whose project refuses the new layer with an exception. *)
Definition failing_host : Host :=
  {| raises := fun _ c =>
       match c with
       | ProjectAddMapLayer _ =>
           Some (Exception "wrapped C/C++ object has been deleted")
       | _ => None
       end;
     QgsRasterLayer := fun _ _ _ =>
       {| layer_isValid := true; layer_error := None |};
     QgsCoordinateReferenceSystem := fun def =>
       {| crs_isValid := true; crs_authid := def |} |}.

(** A project without a reference system, and one that has its own. *)
Definition empty_crs : Crs :=
  {| crs_isValid := false; crs_authid := EmptyString |}.

Definition epsg_2180 : Crs :=
  {| crs_isValid := true; crs_authid := "EPSG:2180" |}.

(** The dialog as the plugin opens it on a new project, on a project
    with a reference system, without [iface], and with a text in the
    combo box that is no entry of the catalog. *)
Definition new_dialog : State := __init__ (Some qgis_iface) empty_crs [].

Definition dialog_on_project : State :=
  __init__ (Some qgis_iface) epsg_2180 [].

Definition dialog_without_iface : State := __init__ None epsg_2180 [].

Definition dialog_unknown_name : State :=
  set_layer_combo_text "Ortofotomapa" new_dialog.

(** The first entry of the catalog, as [get] finds it. *)
Definition osm_info : LayerInfo :=
  {| type := "xyz";
     url := "https://tile.openstreetmap.org/{z}/{x}/{y}.png";
     zmin := 0; zmax := 19; crs := "EPSG:3857";
     info := Some "Standardowa mapa OpenStreetMap z pełnymi detalami" |}.

Local Open Scope list_scope.

(** ** Observing a run *)

(** The calls a statement makes when run from [s], oldest first. *)
Definition calls_made {A : Type} (m : M A) (s : State) : list Call :=
  skipn (length (calls s)) (calls (snd (m s))).

(** [s] with further calls recorded and nothing else changed. *)
Definition record_calls (cs : list Call) (s : State) : State :=
  fold_left (fun s' c => record_call c s') cs s.

(** A host none of whose calls raises. *)
Definition quiet (h : Host) : Prop :=
  forall history c, raises h history c = None.

(** A host whose raster layers are all valid: the stubbed constructor. *)
Definition always_valid (h : Host) : Prop :=
  forall uri name provider,
    layer_isValid (QgsRasterLayer h uri name provider) = true.

(** The project has no reference system, in the sense of line 175. *)
Definition crs_is_empty (c : Crs) : bool :=
  negb (crs_isValid c) || String.eqb (crs_authid c) EmptyString.

Definition is_add_map_layer (c : Call) : bool :=
  match c with ProjectAddMapLayer _ => true | _ => false end.

Definition is_set_extent (c : Call) : bool :=
  match c with CanvasSetExtent _ => true | _ => false end.

Definition is_set_crs (c : Call) : bool :=
  match c with ProjectSetCrs _ => true | _ => false end.

Definition is_new_raster_layer (c : Call) : bool :=
  match c with NewRasterLayer _ _ _ => true | _ => false end.

Definition is_accept (c : Call) : bool :=
  match c with DialogAccept => true | _ => false end.

(** The calls that show or hide the progress bar. *)
Definition is_progress_visible (c : Call) : bool :=
  match c with ProgressSetVisible _ => true | _ => false end.

(** Calls on the map canvas, the call that fetches it included. *)
Definition is_canvas_call (c : Call) : bool :=
  match c with
  | IfaceMapCanvas | CanvasSetDestinationCrs _ | CanvasSetExtent _
  | CanvasRefresh | CanvasZoomToFeatureExtent _ => true
  | _ => false
  end.

(** Calls that change the project. *)
Definition is_project_mutation (c : Call) : bool :=
  is_set_crs c || is_add_map_layer c.

(** Calls [download_layer] makes outside the body of its [try]: the
    reading of the combo box, the warning for a missing selection, the
    progress bar, and the notice of the handler. *)
Definition outside_try (c : Call) : bool :=
  match c with
  | ComboCurrentText | ProgressSetVisible _ | ProgressSetRange _ _
  | MsgCritical _ _ => true
  | MsgWarning title _ => String.eqb title "Błąd"
  | _ => false
  end.

(** The state in which the [try] is entered when lines 146-154 raised
    nothing. *)
Definition progress_shown (s : State) : State :=
  set_progress_bar_range 0 0
    (record_call (ProgressSetRange 0 0)
       (set_progress_bar_visible true
          (record_call (ProgressSetVisible true)
             (record_call ComboCurrentText s)))).

(** The fixed extent as a rectangle. *)
Definition olsztyn_extent : QgsRectangle :=
  {| xMinimum := 2272000; yMinimum := 7129000;
     xMaximum := 2288000; yMaximum := 7145000 |}.

(** *** The calls of a run in which nothing raises

    Written out once, block by block, and proved below to be what
    [download_layer] does against a quiet host. *)

(** The test of line 175. *)
Definition crs_test_calls (c : Crs) : list Call :=
  if crs_isValid c then [ProjectCrs; CrsIsValid; ProjectCrs; CrsAuthid]
  else [ProjectCrs; CrsIsValid].

(** Lines 176-182. *)
Definition crs_set_calls (h : Host) (c : Crs) : list Call :=
  if crs_is_empty c then
    [NewCrs "EPSG:3857";
     ProjectSetCrs (QgsCoordinateReferenceSystem h "EPSG:3857");
     MsgInformation "Informacja" crs_notice]
  else [].

(** Lines 193-214. *)
Definition view_calls (h : Host) (i : option QgisInterface) : list Call :=
  match i with
  | Some _ =>
      [IfaceMapCanvas;
       NewRectangle 2272000 7129000 2288000 7145000;
       NewCrs "EPSG:3857";
       CanvasSetDestinationCrs (QgsCoordinateReferenceSystem h "EPSG:3857");
       CanvasSetExtent olsztyn_extent;
       CanvasRefresh;
       CanvasZoomToFeatureExtent olsztyn_extent]
  | None => []
  end.

Definition loaded_calls (h : Host) (s : State) (selected_layer : string)
    (layer_info : LayerInfo) (layer : RasterLayer) : list Call :=
  [ProjectInstance]
  ++ crs_test_calls (project_crs s)
  ++ crs_set_calls h (project_crs s)
  ++ [ProjectInstance; ProjectAddMapLayer layer]
  ++ view_calls h (iface s)
  ++ [MsgInformation "Sukces"
        (success_text selected_layer layer_info (info_text_of layer_info));
      DialogAccept].

Definition error_msg_of (layer : RasterLayer) : string :=
  match layer_error layer with
  | Some m => m
  | None => "Nieznany błąd"
  end.

Definition failed_calls (selected_layer : string) (layer_info : LayerInfo)
    (layer : RasterLayer) : list Call :=
  match layer_error layer with
  | Some _ => [LayerError; LayerError; ErrorMessage]
  | None => [LayerError]
  end
  ++ [MsgWarning "Błąd ładowania warstwy"
        (failure_text selected_layer layer_info (error_msg_of layer))].

Definition quiet_calls (h : Host) (s : State) (selected_layer : string)
    (layer_info : LayerInfo) : list Call :=
  let layer := QgsRasterLayer h (connection_string layer_info)
                 selected_layer "wms" in
  [ComboCurrentText; ProgressSetVisible true; ProgressSetRange 0 0;
   NewRasterLayer (connection_string layer_info) selected_layer "wms";
   LayerIsValid]
  ++ (if layer_isValid layer
      then loaded_calls h s selected_layer layer_info layer
      else failed_calls selected_layer layer_info layer)
  ++ [ProgressSetVisible false].

(** The state [download_layer] ends in when nothing raises. *)
Definition quiet_final (h : Host) (s : State) (selected_layer : string)
    (layer_info : LayerInfo) : State :=
  let layer := QgsRasterLayer h (connection_string layer_info)
                 selected_layer "wms" in
  let loaded := layer_isValid layer in
  {| iface := iface s;
     layer_combo_items := layer_combo_items s;
     layer_combo_text := layer_combo_text s;
     progress_bar_visible := false;
     progress_bar_range := (0, 0);
     accepted := if loaded then true else accepted s;
     project_crs :=
       if loaded && crs_is_empty (project_crs s)
       then QgsCoordinateReferenceSystem h "EPSG:3857"
       else project_crs s;
     project_layers :=
       if loaded then project_layers s ++ [layer] else project_layers s;
     calls := calls s ++ quiet_calls h s selected_layer layer_info |}.

(** ** The states between two calls of [download_layer]

    As constructed, after the user picked an entry (or any text was put
    in the combo box), after the project changed underneath, and after a
    call of [download_layer] that came back. *)
Inductive reachable : State -> Prop :=
| reach_init iface0 crs0 layers0 :
    reachable (__init__ iface0 crs0 layers0)
| reach_select s text :
    reachable s -> reachable (set_layer_combo_text text s)
| reach_project s c :
    reachable s -> reachable (set_project_crs c s)
| reach_download h s s' :
    reachable s -> download_layer h s = (Returns tt, s') -> reachable s'.

(** ** Triples

    Partial correctness with one postcondition for the normal way out
    of a statement and one for the exceptional way. *)
Definition hoare {A : Type} (P : State -> Prop) (m : M A)
    (Q : A -> State -> Prop) (E : Exn -> State -> Prop) : Prop :=
  forall s, P s ->
    match m s with
    | (Returns a, s') => Q a s'
    | (Raises e, s') => E e s'
    end.

(** Since the state [s0], only calls for which [ok] holds were made. *)
Definition made_only (ok : Call -> Prop) (s0 s : State) : Prop :=
  exists new, calls s = calls s0 ++ new /\ Forall ok new.

(** Moreover the project and the dialog's result are as they were. *)
Definition untouched (ok : Call -> Prop) (s0 s : State) : Prop :=
  made_only ok s0 s
  /\ project_crs s = project_crs s0
  /\ project_layers s = project_layers s0
  /\ accepted s = accepted s0.

(** The call [c] with the effect [eff] keeps the assertion [I], whether
    it raises or takes effect. *)
Definition kept_by (I : State -> Prop) (c : Call) (eff : State -> State) : Prop :=
  forall s, I s -> I (record_call c s) /\ I (eff (record_call c s)).

(** A call that neither changes the project nor closes the dialog. *)
Definition harmless (c : Call) : Prop :=
  is_project_mutation c = false /\ is_accept c = false.

(** A call that constructs a layer does so from the connection string
    of [layer_info], under the selected name, with the provider [wms]. *)
Definition constructs_from (selected_layer : string) (layer_info : LayerInfo)
    (c : Call) : Prop :=
  match c with
  | NewRasterLayer uri name provider =>
      uri = connection_string layer_info /\ name = selected_layer
      /\ provider = "wms"
  | _ => True
  end.

(** ** More to observe in a run *)

(** How often a character occurs in a string. *)
Fixpoint count_char (c : ascii) (s : string) : nat :=
  match s with
  | EmptyString => 0%nat
  | String a rest => ((if Ascii.eqb a c then 1 else 0) + count_char c rest)%nat
  end.

(** The warning of line 150. *)
Definition is_no_selection_warning (c : Call) : bool :=
  match c with
  | MsgWarning title _ => String.eqb title "Błąd"
  | _ => false
  end.

Definition is_layer_error (c : Call) : bool :=
  match c with LayerError => true | _ => false end.

Definition is_error_message (c : Call) : bool :=
  match c with ErrorMessage => true | _ => false end.

Definition is_success_notice (c : Call) : bool :=
  match c with
  | MsgInformation title _ => String.eqb title "Sukces"
  | _ => false
  end.

(** The message boxes that tell the user how a run ended: the success
    notice, a warning, the notice of the handler. *)
Definition is_result_message (c : Call) : bool :=
  match c with
  | MsgInformation title _ => String.eqb title "Sukces"
  | MsgWarning _ _ => true
  | MsgCritical _ _ => true
  | _ => false
  end.

(** The states of a dialog whose combo box is used as Qt offers it: the
    box is not editable, so the current text is one of its items. *)
Inductive picking : State -> Prop :=
| pick_init iface0 crs0 layers0 :
    picking (__init__ iface0 crs0 layers0)
| pick_item s name :
    picking s -> In name (layer_combo_items s) ->
    picking (set_layer_combo_text name s)
| pick_project s c :
    picking s -> picking (set_project_crs c s)
| pick_download h s o s' :
    picking s -> download_layer h s = (o, s') -> picking s'.

(** A new dialog on the project a run left behind, with [name] picked
    in its list. *)
Definition reopen (name : string) (s : State) : State :=
  set_layer_combo_text name
    (__init__ (iface s) (project_crs s) (project_layers s)).

(** A host whose layers do not load and give no error to report. *)
Definition silent_host : Host :=
  {| raises := fun _ _ => None;
     QgsRasterLayer := fun _ _ _ =>
       {| layer_isValid := false; layer_error := None |};
     QgsCoordinateReferenceSystem := fun def =>
       {| crs_isValid := true; crs_authid := def |} |}.

(** Since the state [s0], a call for which [p] holds was made. *)
Definition made_some (p : Call -> bool) (s0 s : State) : Prop :=
  exists new, calls s = calls s0 ++ new /\ existsb p new = true.

(** What a run may have done to the project and to the dialog's result
    since [s0]: nothing but perhaps register [layer]; or register it,
    show the success notice and accept the dialog. *)
Definition run_summary (layer : RasterLayer) (s0 s : State) : Prop :=
  (accepted s = accepted s0
   /\ (project_layers s = project_layers s0
       \/ project_layers s = project_layers s0 ++ [layer]))
  \/ (accepted s = true
      /\ project_layers s = project_layers s0 ++ [layer]
      /\ made_some is_success_notice s0 s).

(** Since [s0] calls were made and the selection is still [name]. *)
Definition selected_since (name : string) (s0 s : State) : Prop :=
  made_only (fun _ => True) s0 s /\ layer_combo_text s = name.

(** The phases of a run: nothing registered yet, the layer registered,
    the success notice requested. *)
Definition before_adding (name : string) (s0 s : State) : Prop :=
  accepted s = accepted s0
  /\ project_layers s = project_layers s0
  /\ made_only (fun _ => True) s0 s
  /\ layer_combo_text s = name.

Definition after_adding (layer : RasterLayer) (s0 s : State) : Prop :=
  accepted s = accepted s0
  /\ project_layers s = project_layers s0 ++ [layer]
  /\ made_only (fun _ => True) s0 s.

Definition after_notice (layer : RasterLayer) (s0 s : State) : Prop :=
  accepted s = accepted s0
  /\ project_layers s = project_layers s0 ++ [layer]
  /\ made_some is_success_notice s0 s.

(** A host that has lost its map canvas: [iface.mapCanvas()] raises
    [e], every other call goes through. *)
Definition canvas_lost (h : Host) (e : Exn) : Prop :=
  (forall history, raises h history IfaceMapCanvas = Some e)
  /\ forall history c, c <> IfaceMapCanvas -> raises h history c = None.

(** The calls of a run against such a host, for a layer that loads. *)
Definition canvas_lost_calls (h : Host) (s : State) (selected_layer : string)
    (layer_info : LayerInfo) (e : Exn) : list Call :=
  [ComboCurrentText; ProgressSetVisible true; ProgressSetRange 0 0;
   NewRasterLayer (connection_string layer_info) selected_layer "wms";
   LayerIsValid; ProjectInstance]
  ++ crs_test_calls (project_crs s)
  ++ crs_set_calls h (project_crs s)
  ++ [ProjectInstance;
      ProjectAddMapLayer
        (QgsRasterLayer h (connection_string layer_info) selected_layer
                        "wms");
      IfaceMapCanvas;
      MsgCritical "Błąd" ("Wystąpił nieoczekiwany błąd:" ++ nl ++ str e)%string;
      ProgressSetVisible false].

Definition canvas_deleted : Exn :=
  Exception "wrapped C/C++ object of type QgsMapCanvas has been deleted".

Definition lost_canvas_host : Host :=
  {| raises := fun _ c =>
       match c with
       | IfaceMapCanvas => Some canvas_deleted
       | _ => None
       end;
     QgsRasterLayer := fun _ _ _ =>
       {| layer_isValid := true; layer_error := None |};
     QgsCoordinateReferenceSystem := fun def =>
       {| crs_isValid := true; crs_authid := def |} |}.

(** ** The plugin object

    The class [OlsztynGeoportal] is what QGIS loads: it builds a
    toolbar, registers one action in the toolbar and in the web menu,
    opens the dialog when the action fires, and takes the menu entry
    away when the plugin is unloaded.  Its calls into Qt and QGIS are
    recorded like those of the dialog, in a record of their own. *)

(** [OlsztynGeoportalDialog(iface)]: a new dialog is what its
    [__init__] builds, in the project as it is at that moment. *)
Definition OlsztynGeoportalDialog (iface0 : option QgisInterface)
    (project_crs0 : Crs) (project_layers0 : list RasterLayer) : State :=
  __init__ iface0 project_crs0 project_layers0.

Module OlsztynGeoportal.

(** *** Qt objects the plugin handles *)

Record QToolBar := { windowTitle : string }.

Record QIcon := { fileName : string }.

Inductive QWidget := main_window.

(** What is connected to [action.triggered]: the bound method
    [self.run], or a callable of the caller of [add_action]. *)
Inductive Callable :=
| bound_run
| callable (label : string).

(** A [QAction] is an object with an identity: two actions built from
    the same arguments are two actions.  [serial] is the number of host
    calls made up to and including its construction. *)
Record QAction := {
  serial : nat;
  icon : QIcon;
  text : string;
  parent : option QWidget
}.

(** The calls of the plugin object into Qt and QGIS. *)
Inductive Call :=
| AddToolBar (title : string)
| SetObjectName (bar : QToolBar) (name : string)
| NewIcon (icon_path : string)
| NewAction (icon0 : QIcon) (text0 : string) (parent0 : option QWidget)
| TriggeredConnect (action : QAction) (callback : Callable)
| SetEnabled (action : QAction) (enabled_flag : bool)
| SetStatusTip (action : QAction) (status_tip : string)
| SetWhatsThis (action : QAction) (whats_this : string)
| ToolBarAddAction (bar : QToolBar) (action : QAction)
| AddPluginToWebMenu (name : string) (action : QAction)
| MainWindow
| RemovePluginWebMenu (name : string) (action : QAction)
| RemoveToolBarIcon (action : QAction)
| DialogExec (dialog : State).

(** The host of the plugin object: which call raises, after which
    history; the directory of the plugin's file; the project a new
    dialog finds. *)
Record Host := {
  raises : list Call -> Call -> option Exn;
  dirname__file__ : string;
  host_project_crs : Crs;
  host_project_layers : list RasterLayer
}.

(** The plugin object with the record of the calls it made.  [toolbar]
    is [None] while the attribute does not exist. *)
Record Plugin := {
  iface : option QgisInterface;
  plugin_dir : string;
  actions : list QAction;
  menu : string;
  toolbar : option QToolBar;
  calls : list Call
}.

Definition record_call (c : Call) (p : Plugin) : Plugin :=
  {| iface := iface p; plugin_dir := plugin_dir p; actions := actions p;
     menu := menu p; toolbar := toolbar p; calls := calls p ++ [c] |}.

Definition set_iface (i : option QgisInterface) (p : Plugin) : Plugin :=
  {| iface := i; plugin_dir := plugin_dir p; actions := actions p;
     menu := menu p; toolbar := toolbar p; calls := calls p |}.

Definition set_plugin_dir (d : string) (p : Plugin) : Plugin :=
  {| iface := iface p; plugin_dir := d; actions := actions p;
     menu := menu p; toolbar := toolbar p; calls := calls p |}.

Definition set_actions (l : list QAction) (p : Plugin) : Plugin :=
  {| iface := iface p; plugin_dir := plugin_dir p; actions := l;
     menu := menu p; toolbar := toolbar p; calls := calls p |}.

Definition set_menu (m : string) (p : Plugin) : Plugin :=
  {| iface := iface p; plugin_dir := plugin_dir p; actions := actions p;
     menu := m; toolbar := toolbar p; calls := calls p |}.

Definition set_toolbar (t : option QToolBar) (p : Plugin) : Plugin :=
  {| iface := iface p; plugin_dir := plugin_dir p; actions := actions p;
     menu := menu p; toolbar := t; calls := calls p |}.

(** *** Methods that may raise *)

Definition G (A : Type) : Type := Plugin -> Outcome A * Plugin.

Definition ret {A : Type} (a : A) : G A := fun p => (Returns a, p).

Definition raise {A : Type} (e : Exn) : G A := fun p => (Raises e, p).

Definition bind {A B : Type} (m : G A) (k : A -> G B) : G B :=
  fun p => match m p with
           | (Returns a, p') => k a p'
           | (Raises e, p') => (Raises e, p')
           end.

Declare Scope plugin_scope.
Notation "x <- m ;; k" := (bind m (fun x => k))
  (at level 61, m at next level, right associativity) : plugin_scope.
Notation "m ;; k" := (bind m (fun _ => k))
  (at level 61, right associativity) : plugin_scope.
Local Open Scope plugin_scope.

Definition read {A : Type} (f : Plugin -> A) : G A :=
  fun p => (Returns (f p), p).

(** An assignment to an attribute of [self]. *)
Definition assign (f : Plugin -> Plugin) : G unit :=
  fun p => (Returns tt, f p).

(** One call into the host: it is recorded, then the host either raises
    or answers. *)
Definition call {A : Type} (h : Host) (c : Call) (answer : Plugin -> A)
    : G A :=
  fun p => match raises h (calls p) c with
           | Some e => (Raises e, record_call c p)
           | None => (Returns (answer (record_call c p)), record_call c p)
           end.

Definition nothing (p : Plugin) : unit := tt.

(** [self.iface.<method>]: [None] has no methods. *)
Definition self_iface (method : string) : G QgisInterface :=
  i <- read iface ;;
  match i with
  | Some q => ret q
  | None =>
      raise (Exception ("'NoneType' object has no attribute '"
                        ++ method ++ "'"))
  end.

(** The [AttributeError] for [self.toolbar] once [del self.toolbar] has
    run.  The interpreter words it differently for a read and for a
    second [del]; nothing below depends on the wording. *)
Definition no_toolbar : Exn :=
  Exception "'OlsztynGeoportal' object has no attribute 'toolbar'".

Definition self_toolbar : G QToolBar :=
  t <- read toolbar ;;
  match t with
  | Some bar => ret bar
  | None => raise no_toolbar
  end.

(** Lines 252-258. *)
Definition __init__ (h : Host) (iface0 : option QgisInterface) : G unit :=
  assign (set_iface iface0) ;;
  assign (set_plugin_dir (dirname__file__ h)) ;;
  assign (set_actions []) ;;
  assign (set_menu "Geoportal Olsztyn") ;;
  self_iface "addToolBar" ;;
  bar <- call h (AddToolBar "Geoportal Olsztyn")
              (fun _ => {| windowTitle := "Geoportal Olsztyn" |}) ;;
  assign (set_toolbar (Some bar)) ;;
  bar' <- self_toolbar ;;
  call h (SetObjectName bar' "GeoportalOlsztyn") nothing.

(** Lines 260-295. *)
Definition add_action (h : Host) (icon_path : string) (text0 : string)
    (callback : Callable) (enabled_flag add_to_menu add_to_toolbar : bool)
    (status_tip whats_this : option string) (parent0 : option QWidget)
    : G QAction :=
  icon0 <- call h (NewIcon icon_path) (fun _ => {| fileName := icon_path |}) ;;
  action <- call h (NewAction icon0 text0 parent0)
                 (fun p => {| serial := length (calls p); icon := icon0;
                              text := text0; parent := parent0 |}) ;;
  call h (TriggeredConnect action callback) nothing ;;
  call h (SetEnabled action enabled_flag) nothing ;;
  match status_tip with
  | Some tip => call h (SetStatusTip action tip) nothing
  | None => ret tt
  end ;;
  match whats_this with
  | Some what => call h (SetWhatsThis action what) nothing
  | None => ret tt
  end ;;
  (if add_to_toolbar then
     bar <- self_toolbar ;;
     call h (ToolBarAddAction bar action) nothing
   else ret tt) ;;
  (if add_to_menu then
     self_iface "addPluginToWebMenu" ;;
     name <- read menu ;;
     call h (AddPluginToWebMenu name action) nothing
   else ret tt) ;;
  l <- read actions ;;
  assign (set_actions (l ++ [action])) ;;
  ret action.

(** Lines 297-306; the arguments left out take their defaults. *)
Definition initGui (h : Host) : G unit :=
  let icon_path := ":/plugins/olsztyn_geoportal/icon.png" in
  self_iface "mainWindow" ;;
  window <- call h MainWindow (fun _ => main_window) ;;
  add_action h icon_path "Pobierz dane z Geoportalu Olsztyna" bound_run
             true true true None None (Some window) ;;
  ret tt.

(** Lines 310-315: the loop over [self.actions]. *)
Fixpoint unload_actions (h : Host) (l : list QAction) : G unit :=
  match l with
  | [] => ret tt
  | action :: rest =>
      self_iface "removePluginWebMenu" ;;
      call h (RemovePluginWebMenu "Geoportal Olsztyn" action) nothing ;;
      self_iface "removeToolBarIcon" ;;
      call h (RemoveToolBarIcon action) nothing ;;
      unload_actions h rest
  end.

(** Lines 308-316. *)
Definition unload (h : Host) : G unit :=
  l <- read actions ;;
  unload_actions h l ;;
  t <- read toolbar ;;
  match t with
  | Some _ => assign (set_toolbar None)
  | None => raise no_toolbar
  end.

(** Lines 318-321. *)
Definition run (h : Host) : G unit :=
  i <- read iface ;;
  let dialog :=
    OlsztynGeoportalDialog i (host_project_crs h) (host_project_layers h) in
  call h (DialogExec dialog) nothing.

(** The object before [__init__] has run; no attribute is read before
    it is assigned. *)
Definition new_object : Plugin :=
  {| iface := None; plugin_dir := EmptyString; actions := [];
     menu := EmptyString; toolbar := None; calls := [] |}.

End OlsztynGeoportal.

(** Lines 324-326: the object is handed to QGIS when [__init__]
    returns. *)
Definition classFactory (h : OlsztynGeoportal.Host)
    (iface0 : option QgisInterface)
    : Outcome unit * OlsztynGeoportal.Plugin :=
  OlsztynGeoportal.__init__ h iface0 OlsztynGeoportal.new_object.

(** *** Observing the plugin object *)

Section PluginObservations.
Import OlsztynGeoportal.

(** The calls a method made. *)
Definition plugin_calls_made {A : Type} (m : G A) (p : Plugin) : list Call :=
  skipn (length (calls p)) (calls (snd (m p))).

Definition plugin_quiet (h : Host) : Prop :=
  forall history c, raises h history c = None.

(** What [unload] asks of QGIS for one action. *)
Definition removal_calls (action : QAction) : list Call :=
  [RemovePluginWebMenu "Geoportal Olsztyn" action; RemoveToolBarIcon action].

Definition is_removal (c : Call) : bool :=
  match c with
  | RemovePluginWebMenu _ _ | RemoveToolBarIcon _ => true
  | _ => false
  end.

(** The methods QGIS and other code may invoke on the plugin object. *)
Inductive Method :=
| invoke_add_action (icon_path text0 : string) (callback : Callable)
    (enabled_flag add_to_menu add_to_toolbar : bool)
    (status_tip whats_this : option string) (parent0 : option QWidget)
| invoke_initGui
| invoke_unload
| invoke_run.

(** The object after a method, whether the method returned or raised. *)
Definition invoke (h : Host) (m : Method) (p : Plugin) : Plugin :=
  match m with
  | invoke_add_action icon_path text0 callback enabled_flag add_to_menu
      add_to_toolbar status_tip whats_this parent0 =>
      snd (add_action h icon_path text0 callback enabled_flag add_to_menu
             add_to_toolbar status_tip whats_this parent0 p)
  | invoke_initGui => snd (initGui h p)
  | invoke_unload => snd (unload h p)
  | invoke_run => snd (run h p)
  end.

(** The plugin objects there can be: made by [classFactory], then used
    through their methods. *)
Inductive alive (h : Host) : Plugin -> Prop :=
| alive_new (iface0 : option QgisInterface) (p : Plugin) :
    classFactory h iface0 = (Returns tt, p) -> alive h p
| alive_invoke (p : Plugin) (m : Method) :
    alive h p -> alive h (invoke h m p).

(** What [add_action] leaves as it was. *)
Definition only_actions (p p' : Plugin) : Prop :=
  iface p' = iface p /\ plugin_dir p' = plugin_dir p /\ menu p' = menu p
  /\ toolbar p' = toolbar p.

(** The object after a method: the interface and the menu name are
    those of [p], calls were added, and the list of actions is as it
    was or longer by one action built in between. *)
Definition grown (p p' : Plugin) : Prop :=
  iface p' = iface p /\ menu p' = menu p
  /\ (exists new, calls p' = calls p ++ new)
  /\ (actions p' = actions p
      \/ exists a, actions p' = actions p ++ [a]
                   /\ (length (calls p) < serial a <= length (calls p'))%nat).

Definition shell_invariant (p : Plugin) : Prop :=
  iface p <> None /\ menu p = "Geoportal Olsztyn"
  /\ NoDup (actions p)
  /\ Forall (fun a => (serial a <= length (calls p))%nat) (actions p).

(** Every entry the object asked the web menu for is filed under the
    name [unload] uses, and its action is in [self.actions]. *)
Definition menu_registered (p : Plugin) : Prop :=
  forall m a, In (AddPluginToWebMenu m a) (calls p) ->
              m = "Geoportal Olsztyn" /\ In a (actions p).

(** A QGIS that raises nothing, with an empty project. *)
Definition quiet_qgis : Host :=
  {| raises := fun _ _ => None;
     dirname__file__ := "/python/plugins/olsztyn_geoportal";
     host_project_crs := empty_crs;
     host_project_layers := [] |}.

(** The plugin object after [classFactory] and [initGui]. *)
Definition loaded_plugin : Plugin :=
  invoke quiet_qgis invoke_initGui
         (snd (classFactory quiet_qgis (Some qgis_iface))).

(** The action [initGui] builds there. *)
Definition download_action : QAction :=
  {| serial := 5;
     icon := {| fileName := ":/plugins/olsztyn_geoportal/icon.png" |};
     text := "Pobierz dane z Geoportalu Olsztyna";
     parent := Some main_window |}.

End PluginObservations.

(** * Strings and dictionaries *)

Lemma prefix_append (p rest : string) : String.prefix p (p ++ rest)%string = true.
Proof.
  induction p as [|c p IH]; cbn.
  - destruct rest; reflexivity.
  - destruct (ascii_dec c c) as [_|ne]; [exact IH | congruence].
Qed.

Lemma contains_prefix (needle rest : string) :
  contains needle (needle ++ rest)%string = true.
Proof.
  generalize (prefix_append needle rest).
  destruct (needle ++ rest)%string; cbn; intros ->; reflexivity.
Qed.

Lemma contains_skip (needle before hay : string) :
  contains needle hay = true -> contains needle (before ++ hay)%string = true.
Proof.
  intros H. induction before as [|c before IH]; cbn; [exact H|].
  rewrite IH. destruct needle as [|a needle']; [reflexivity|].
  destruct (ascii_dec a c); [destruct (String.prefix _ _)|]; reflexivity.
Qed.

Lemma contains_end (needle before : string) :
  contains needle (before ++ needle)%string = true.
Proof.
  apply contains_skip. generalize (contains_prefix needle EmptyString).
  assert ((needle ++ EmptyString)%string = needle) as ->; [|auto].
  induction needle; cbn; congruence.
Qed.

Lemma get_None {V : Type} (d : dict V) (key : string) :
  get d key = None <-> ~ In key (keys d).
Proof.
  induction d as [|[k v] d IH]; cbn.
  - tauto.
  - destruct (String.eqb_spec k key) as [->|ne].
    + split; [discriminate | tauto].
    + rewrite IH. tauto.
Qed.

Lemma get_In {V : Type} (d : dict V) (key : string) (v : V) :
  get d key = Some v -> In (key, v) d.
Proof.
  induction d as [|[k w] d IH]; cbn; [discriminate|].
  destruct (String.eqb_spec k key) as [->|ne].
  - intros [= ->]. now left.
  - auto.
Qed.

Lemma get_Some_key {V : Type} (d : dict V) (key : string) :
  In key (keys d) -> exists v, get d key = Some v.
Proof.
  intros H. destruct (get d key) eqn:E; [eauto|].
  apply get_None in E. contradiction.
Qed.

Arguments get : simpl never.
Arguments connection_string : simpl never.
Arguments success_text : simpl never.
Arguments failure_text : simpl never.
Arguments info_text_of : simpl never.

(** ** The catalog *)

(** What holds of every entry of the table holds of whatever a lookup
    finds. *)
Lemma catalog_all (P : string -> LayerInfo -> Prop) :
  Forall (fun entry => P (fst entry) (snd entry)) layers ->
  forall name d, get layers name = Some d -> P name d.
Proof.
  intros H name d Hd. rewrite Forall_forall in H.
  exact (H _ (get_In _ _ _ Hd)).
Qed.

Lemma catalog_type (name : string) (d : LayerInfo) :
  get layers name = Some d -> type d = "xyz".
Proof. revert name d. apply catalog_all. repeat constructor. Qed.

Lemma catalog_crs (name : string) (d : LayerInfo) :
  get layers name = Some d -> crs d = "EPSG:3857".
Proof. revert name d. apply catalog_all. repeat constructor. Qed.

(** ** The fixed extent *)

Lemma bbox_coords_length : length (split "," olsztyn_bbox) = 4%nat.
Proof. reflexivity. Qed.

Lemma bbox_coords_0 :
  float (nth 0 (split "," olsztyn_bbox) EmptyString) = inr 2272000.
Proof. reflexivity. Qed.

Lemma bbox_coords_1 :
  float (nth 1 (split "," olsztyn_bbox) EmptyString) = inr 7129000.
Proof. reflexivity. Qed.

Lemma bbox_coords_2 :
  float (nth 2 (split "," olsztyn_bbox) EmptyString) = inr 2288000.
Proof. reflexivity. Qed.

Lemma bbox_coords_3 :
  float (nth 3 (split "," olsztyn_bbox) EmptyString) = inr 7145000.
Proof. reflexivity. Qed.

(** * States *)

Lemma skipn_length_app {A : Type} (l new : list A) :
  skipn (length l) (l ++ new) = new.
Proof. induction l; cbn; auto. Qed.

Lemma calls_made_eq {A : Type} (m : M A) (s : State) (new : list Call) :
  calls (snd (m s)) = calls s ++ new -> calls_made m s = new.
Proof. intros H. unfold calls_made. rewrite H. apply skipn_length_app. Qed.

Lemma state_eq (s1 s2 : State) :
  iface s1 = iface s2 -> layer_combo_items s1 = layer_combo_items s2 ->
  layer_combo_text s1 = layer_combo_text s2 ->
  progress_bar_visible s1 = progress_bar_visible s2 ->
  progress_bar_range s1 = progress_bar_range s2 ->
  accepted s1 = accepted s2 -> project_crs s1 = project_crs s2 ->
  project_layers s1 = project_layers s2 -> calls s1 = calls s2 -> s1 = s2.
Proof. destruct s1, s2; cbn; intros; subst; reflexivity. Qed.

Lemma calls_record_calls (cs : list Call) (s : State) :
  calls (record_calls cs s) = calls s ++ cs.
Proof.
  revert s; induction cs as [|c cs IH]; intros s; cbn.
  - now rewrite app_nil_r.
  - unfold record_calls in IH. rewrite IH. cbn. now rewrite <- app_assoc.
Qed.

Lemma record_calls_frame (cs : list Call) (s : State) :
  iface (record_calls cs s) = iface s
  /\ layer_combo_items (record_calls cs s) = layer_combo_items s
  /\ layer_combo_text (record_calls cs s) = layer_combo_text s
  /\ progress_bar_visible (record_calls cs s) = progress_bar_visible s
  /\ progress_bar_range (record_calls cs s) = progress_bar_range s
  /\ accepted (record_calls cs s) = accepted s
  /\ project_crs (record_calls cs s) = project_crs s
  /\ project_layers (record_calls cs s) = project_layers s.
Proof.
  revert s; induction cs as [|c cs IH]; intros s; cbn; [tauto|].
  apply (IH (record_call c s)).
Qed.

Lemma iface_record_calls (cs : list Call) (s : State) :
  iface (record_calls cs s) = iface s.
Proof. apply record_calls_frame. Qed.

Lemma layer_combo_items_record_calls (cs : list Call) (s : State) :
  layer_combo_items (record_calls cs s) = layer_combo_items s.
Proof. apply record_calls_frame. Qed.

Lemma layer_combo_text_record_calls (cs : list Call) (s : State) :
  layer_combo_text (record_calls cs s) = layer_combo_text s.
Proof. apply record_calls_frame. Qed.

Lemma progress_bar_visible_record_calls (cs : list Call) (s : State) :
  progress_bar_visible (record_calls cs s) = progress_bar_visible s.
Proof. apply record_calls_frame. Qed.

Lemma progress_bar_range_record_calls (cs : list Call) (s : State) :
  progress_bar_range (record_calls cs s) = progress_bar_range s.
Proof. apply record_calls_frame. Qed.

Lemma accepted_record_calls (cs : list Call) (s : State) :
  accepted (record_calls cs s) = accepted s.
Proof. apply record_calls_frame. Qed.

Lemma project_crs_record_calls (cs : list Call) (s : State) :
  project_crs (record_calls cs s) = project_crs s.
Proof. apply record_calls_frame. Qed.

Lemma project_layers_record_calls (cs : list Call) (s : State) :
  project_layers (record_calls cs s) = project_layers s.
Proof. apply record_calls_frame. Qed.

Create Rewrite HintDb state.
#[export] Hint Rewrite calls_record_calls iface_record_calls
  layer_combo_items_record_calls layer_combo_text_record_calls
  progress_bar_visible_record_calls progress_bar_range_record_calls
  accepted_record_calls project_crs_record_calls
  project_layers_record_calls : state.

(** Reads a field of a state built by the setters. *)
Ltac state_simpl :=
  cbn [same nothing record_call
       set_progress_bar_visible set_progress_bar_range set_accepted
       set_project_crs add_project_layer set_layer_combo_text
       iface layer_combo_items layer_combo_text progress_bar_visible
       progress_bar_range accepted project_crs project_layers calls
       fst snd negb orb andb].

Ltac state_fields :=
  repeat first [progress autorewrite with state | progress state_simpl].

Ltac tidy_calls := repeat rewrite <- app_assoc; cbn [app].

(** * Rules for triples *)

Section Rules.
Context {A : Type}.
Context {P : State -> Prop} {Q : A -> State -> Prop} {E : Exn -> State -> Prop}.

Lemma hoare_ret (a : A) : (forall s, P s -> Q a s) -> hoare P (ret a) Q E.
Proof. intros H s Hs. exact (H s Hs). Qed.

Lemma hoare_raise (e : Exn) :
  (forall s, P s -> E e s) -> hoare P (@raise A e) Q E.
Proof. intros H s Hs. exact (H s Hs). Qed.

Lemma hoare_lift (r : Exn + A) :
  (forall s a, P s -> r = inr a -> Q a s) ->
  (forall s e, P s -> r = inl e -> E e s) ->
  hoare P (lift r) Q E.
Proof. intros Ha He s Hs. destruct r; cbn; eauto. Qed.

Lemma hoare_call (h : Host) (c : Call) (eff : State -> State)
    (ans : State -> A) :
  (forall s e, P s -> raises h (calls s) c = Some e -> E e (record_call c s)) ->
  (forall s, P s -> raises h (calls s) c = None ->
             Q (ans (eff (record_call c s))) (eff (record_call c s))) ->
  hoare P (call h c eff ans) Q E.
Proof.
  intros He Hr s Hs. unfold call.
  destruct (raises h (calls s) c) eqn:R;
    [apply (He s e Hs R) | apply (Hr s Hs R)].
Qed.

Lemma hoare_try_except (E1 : Exn -> State -> Prop) (body : M A)
    (handler : Exn -> M A) :
  hoare P body Q E1 ->
  (forall e, hoare (E1 e) (handler e) Q E) ->
  hoare P (try_except body handler) Q E.
Proof.
  intros Hb Hh s Hs. unfold try_except. specialize (Hb s Hs).
  destruct (body s) as [[a|e] s']; [exact Hb | exact (Hh e s' Hb)].
Qed.

Lemma hoare_try_finally (Q1 : A -> State -> Prop) (E1 : Exn -> State -> Prop)
    (body : M A) (final : M unit) :
  hoare P body Q1 E1 ->
  (forall a, hoare (Q1 a) final (fun _ => Q a) E) ->
  (forall e, hoare (E1 e) final (fun _ => E e) E) ->
  hoare P (try_finally body final) Q E.
Proof.
  intros Hb Hr He s Hs. unfold try_finally. specialize (Hb s Hs).
  destruct (body s) as [[a|e] s'].
  - specialize (Hr a s' Hb). destruct (final s') as [[[]|e'] s'']; exact Hr.
  - specialize (He e s' Hb). destruct (final s') as [[[]|e'] s'']; exact He.
Qed.

(** A triple may be proved state by state. *)
Lemma hoare_from (s1 : State) (m : M A) :
  P s1 -> hoare P m Q E -> hoare (eq s1) m Q E.
Proof. intros H1 H s <-. exact (H s1 H1). Qed.

End Rules.

Section Sequencing.
Context {A B : Type}.
Context {P : State -> Prop} {Q : B -> State -> Prop} {E : Exn -> State -> Prop}.

Lemma hoare_bind (R : A -> State -> Prop) (m : M A) (k : A -> M B) :
  hoare P m R E -> (forall a, hoare (R a) (k a) Q E) -> hoare P (bind m k) Q E.
Proof.
  intros Hm Hk s Hs. unfold bind. specialize (Hm s Hs).
  destruct (m s) as [[a|e] s']; [exact (Hk a s' Hm) | exact Hm].
Qed.

(** A call and what follows it: what follows is taken at the answer the
    call gives in the state it leaves. *)
Lemma hoare_bind_call (R : State -> Prop) (h : Host) (c : Call)
    (eff : State -> State) (ans : State -> A) (k : A -> M B) :
  (forall s e, P s -> raises h (calls s) c = Some e -> E e (record_call c s)) ->
  (forall s, P s -> R (eff (record_call c s))) ->
  (forall s1, R s1 -> hoare (eq s1) (k (ans s1)) Q E) ->
  hoare P (bind (call h c eff ans) k) Q E.
Proof.
  intros He Hr Hk s Hs. unfold bind, call.
  destruct (raises h (calls s) c) eqn:Rz; [exact (He s e Hs Rz)|].
  exact (Hk _ (Hr s Hs) _ eq_refl).
Qed.

Lemma hoare_bind_read (f : State -> A) (k : A -> M B) :
  (forall s1, P s1 -> hoare (eq s1) (k (f s1)) Q E) ->
  hoare P (bind (read f) k) Q E.
Proof. intros Hk s Hs. exact (Hk s Hs s eq_refl). Qed.

End Sequencing.

(** ** Assertions that every call keeps *)

Section Invariant.
Context {A B : Type}.
Variables (h : Host) (I : State -> Prop).

Lemma keep_call (c : Call) (eff : State -> State) (ans : State -> A) :
  kept_by I c eff -> hoare I (call h c eff ans) (fun _ => I) (fun _ => I).
Proof. intros K. apply hoare_call; intros; apply K; assumption. Qed.

Lemma keep_ret (a : A) : hoare I (ret a) (fun _ => I) (fun _ => I).
Proof. apply hoare_ret; auto. Qed.

Lemma keep_raise (e : Exn) : hoare I (@raise A e) (fun _ => I) (fun _ => I).
Proof. apply hoare_raise; auto. Qed.

Lemma keep_bind (Q : B -> State -> Prop) (m : M A) (k : A -> M B) :
  hoare I m (fun _ => I) (fun _ => I) ->
  (forall v, hoare I (k v) Q (fun _ => I)) ->
  hoare I (bind m k) Q (fun _ => I).
Proof. intros Hm Hk. eapply hoare_bind; [exact Hm | exact Hk]. Qed.

Lemma keep_bind_call (Q : B -> State -> Prop) (c : Call)
    (eff : State -> State) (ans : State -> A) (k : A -> M B) :
  kept_by I c eff ->
  (forall s, I s -> hoare I (k (ans s)) Q (fun _ => I)) ->
  hoare I (bind (call h c eff ans) k) Q (fun _ => I).
Proof.
  intros K Hk. apply hoare_bind_call with (R := I).
  - intros; apply K; assumption.
  - intros; apply K; assumption.
  - intros s1 H1. apply (hoare_from (P := I)); auto.
Qed.

Lemma keep_bind_read (Q : B -> State -> Prop) (f : State -> A)
    (k : A -> M B) :
  (forall s, I s -> hoare I (k (f s)) Q (fun _ => I)) ->
  hoare I (bind (read f) k) Q (fun _ => I).
Proof.
  intros Hk. apply hoare_bind_read. intros s1 H1.
  apply (hoare_from (P := I)); auto.
Qed.

Lemma keep_bind_lift (Q : B -> State -> Prop) (r : Exn + A) (k : A -> M B) :
  (forall v, hoare I (k v) Q (fun _ => I)) ->
  hoare I (bind (lift r) k) Q (fun _ => I).
Proof. intros Hk. apply keep_bind; [|exact Hk]. apply hoare_lift; auto. Qed.

Lemma keep_try_except (body : M A) (handler : Exn -> M A) :
  hoare I body (fun _ => I) (fun _ => I) ->
  (forall e, hoare I (handler e) (fun _ => I) (fun _ => I)) ->
  hoare I (try_except body handler) (fun _ => I) (fun _ => I).
Proof. intros Hb Hh. eapply hoare_try_except; [exact Hb | exact Hh]. Qed.

Lemma keep_try_finally (body : M A) (final : M unit) :
  hoare I body (fun _ => I) (fun _ => I) ->
  hoare I final (fun _ => I) (fun _ => I) ->
  hoare I (try_finally body final) (fun _ => I) (fun _ => I).
Proof.
  intros Hb Hf. eapply hoare_try_finally; [exact Hb | |]; intros; exact Hf.
Qed.

End Invariant.

Ltac unfold_blocks :=
  unfold try_load_layer, load_layer, layer_loaded, layer_failed,
    set_view_on_olsztyn, project_crs_is_empty, unexpected_error.

(** Walks through a statement under an assertion that every call keeps.
    [kept] proves that one call keeps it; [known H] uses what the
    assertion [H] says of the state an answer was read from. *)
Ltac walk_step kept known :=
  lazymatch goal with
  | |- hoare _ (bind (call _ _ _ _) _) _ _ =>
      apply keep_bind_call;
      [kept
      | intros ? ?;
        lazymatch goal with H : _ |- _ => cbv beta in H; known H end]
  | |- hoare _ (bind (read _) _) _ _ =>
      apply keep_bind_read; intros ? ?;
      lazymatch goal with H : _ |- _ => cbv beta in H; known H end
  | |- hoare _ (bind (lift _) _) _ _ =>
      apply keep_bind_lift; intros ?
  | |- hoare _ (bind _ _) _ _ =>
      apply keep_bind; [| intros ?]
  | |- hoare _ (try_finally _ _) (fun _ => ?I) (fun _ => ?I) =>
      apply keep_try_finally
  | |- hoare _ (try_except _ _) (fun _ => ?I) (fun _ => ?I) =>
      apply keep_try_except; [| intros ?]
  | |- hoare _ (call _ _ _ _) (fun _ => ?I) (fun _ => ?I) =>
      apply keep_call; kept
  | |- hoare _ (ret _) (fun _ => ?I) (fun _ => ?I) => apply keep_ret
  | |- hoare _ (raise _) (fun _ => ?I) (fun _ => ?I) => apply keep_raise
  | |- hoare _ (if ?b then _ else _) _ _ => destruct b
  | |- hoare _ (match ?x with Some _ => _ | None => _ end) _ _ =>
      destruct x
  end.

Ltac walk kept known := repeat walk_step kept known.

(** ** Calls made since a state *)

Lemma made_only_refl (ok : Call -> Prop) (s : State) : made_only ok s s.
Proof. exists []. split; [now rewrite app_nil_r | constructor]. Qed.

Lemma made_only_step (ok : Call -> Prop) (s0 s s' : State) (c : Call) :
  made_only ok s0 s -> calls s' = calls s ++ [c] -> ok c ->
  made_only ok s0 s'.
Proof.
  intros (new & Hc & Hok) Hs' Hcok. exists (new ++ [c]). split.
  - rewrite Hs', Hc, app_assoc. reflexivity.
  - apply Forall_app. split; [exact Hok | repeat constructor; exact Hcok].
Qed.

Lemma made_only_calls_made {A : Type} (ok : Call -> Prop) (m : M A)
    (s : State) :
  made_only ok s (snd (m s)) -> Forall ok (calls_made m s).
Proof.
  intros (new & Hc & Hok). rewrite (calls_made_eq _ _ _ Hc). exact Hok.
Qed.

(** Proves [kept_by] for an assertion made of [made_only] and of
    equations on fields the call does not write. *)
Ltac kept_made :=
  intros ? ?;
  lazymatch goal with
  | H : _ |- _ =>
      cbv beta in H; split;
      repeat match goal with
             | |- _ /\ _ => split
             | |- made_only _ _ _ =>
                 eapply made_only_step;
                 [apply H | reflexivity
                 | solve [hnf; repeat split; reflexivity]]
             | |- _ => state_simpl; apply H
             end
  end.

(** * Runs in which nothing raises *)

Section Quiet.
Variable h : Host.
Hypothesis Hq : quiet h.

Lemma call_quiet {A : Type} (c : Call) (eff : State -> State)
    (ans : State -> A) (s : State) :
  call h c eff ans s
  = (Returns (ans (eff (record_call c s))), eff (record_call c s)).
Proof. unfold call. rewrite Hq. reflexivity. Qed.

(** Runs calls one after the other. *)
Ltac exec :=
  unfold bind, ret, read;
  repeat first [rewrite call_quiet | progress cbv beta iota
               | progress state_simpl].

Lemma project_crs_is_empty_quiet (s : State) :
  project_crs_is_empty h s
  = (Returns (crs_is_empty (project_crs s)),
     record_calls (crs_test_calls (project_crs s)) s).
Proof.
  unfold project_crs_is_empty, crs_is_empty, crs_test_calls. exec.
  destruct (crs_isValid (project_crs s)); exec; reflexivity.
Qed.

Lemma set_view_on_olsztyn_quiet (s : State) :
  set_view_on_olsztyn h s
  = (Returns tt, record_calls (view_calls h (iface s)) s).
Proof.
  unfold set_view_on_olsztyn, view_calls. exec.
  destruct (iface s); [|reflexivity].
  rewrite bbox_coords_length, bbox_coords_0, bbox_coords_1, bbox_coords_2,
    bbox_coords_3.
  cbn [Nat.eqb lift]. exec. reflexivity.
Qed.

Lemma layer_loaded_quiet (s : State) (name : string) (d : LayerInfo)
    (layer : RasterLayer) :
  exists s', layer_loaded h name d layer s = (Returns tt, s')
    /\ iface s' = iface s
    /\ layer_combo_items s' = layer_combo_items s
    /\ layer_combo_text s' = layer_combo_text s
    /\ progress_bar_visible s' = progress_bar_visible s
    /\ progress_bar_range s' = progress_bar_range s
    /\ accepted s' = true
    /\ project_crs s' =
       (if crs_is_empty (project_crs s)
        then QgsCoordinateReferenceSystem h "EPSG:3857" else project_crs s)
    /\ project_layers s' = project_layers s ++ [layer]
    /\ calls s' = calls s ++ loaded_calls h s name d layer.
Proof.
  unfold layer_loaded, loaded_calls, crs_set_calls. exec.
  rewrite project_crs_is_empty_quiet. exec.
  destruct (crs_is_empty (project_crs s)); exec;
    rewrite set_view_on_olsztyn_quiet; exec;
    (eexists; split; [reflexivity|]); state_fields; tidy_calls;
    repeat split; reflexivity.
Qed.

Lemma layer_failed_quiet (s : State) (name : string) (d : LayerInfo)
    (layer : RasterLayer) :
  layer_failed h name d layer s
  = (Returns tt, record_calls (failed_calls name d layer) s).
Proof.
  unfold layer_failed, failed_calls, error_msg_of. exec.
  destruct (layer_error layer); exec; reflexivity.
Qed.

Lemma download_layer_quiet (s : State) (name : string) (d : LayerInfo) :
  layer_combo_text s = name -> get layers name = Some d ->
  download_layer h s = (Returns tt, quiet_final h s name d).
Proof.
  intros Ht Hd. unfold download_layer. exec. rewrite Ht, Hd. exec.
  unfold try_load_layer, try_finally, try_except, load_layer.
  rewrite (catalog_type _ _ Hd). cbn [String.eqb Ascii.eqb Bool.eqb]. exec.
  unfold quiet_final, quiet_calls.
  destruct (layer_isValid (QgsRasterLayer h (connection_string d) name "wms")).
  - match goal with
    | |- context [layer_loaded h name d ?l ?s1] =>
        destruct (layer_loaded_quiet s1 name d l)
          as (s' & -> & Hi & Hci & Hct & Hv & Hr & Ha & Hc & Hl & Hcs)
    end.
    exec. f_equal. revert Hi Hci Hct Hv Hr Ha Hc Hl Hcs. state_simpl. intros.
    apply state_eq; state_simpl; try assumption; try reflexivity.
    rewrite Hcs. unfold loaded_calls. state_simpl. tidy_calls. reflexivity.
  - rewrite layer_failed_quiet. exec. f_equal.
    apply state_eq; state_fields; try reflexivity.
    tidy_calls. reflexivity.
Qed.

End Quiet.

(** * Runs against any host *)

Lemma hoare_trivial {A : Type} (P : State -> Prop) (m : M A) :
  hoare P m (fun _ _ => True) (fun _ _ => True).
Proof. intros s _. destruct (m s) as [[a|e] s']; exact I. Qed.

Lemma hoare_pure {A : Type} (P : State -> Prop) (fact : Prop) (m : M A)
    (Q : A -> State -> Prop) (E : Exn -> State -> Prop) :
  (fact -> hoare P m Q E) -> hoare (fun s => P s /\ fact) m Q E.
Proof. intros H s [Hs Hf]. exact (H Hf s Hs). Qed.

Lemma call_returns {A : Type} (h : Host) (c : Call) (eff : State -> State)
    (ans : State -> A) (s : State) :
  raises h (calls s) c = None ->
  call h c eff ans s
  = (Returns (ans (eff (record_call c s))), eff (record_call c s)).
Proof. intros H. unfold call. rewrite H. reflexivity. Qed.

Section AnyHost.
Variable h : Host.
Variables (name : string) (d : LayerInfo).
Hypothesis Hd : get layers name = Some d.

(** What the assertion [H] says of the selection decides the lookup. *)
Ltac selection H :=
  cbv beta zeta;
  try match type of H with
      | context [layer_combo_text ?s = name] =>
          match goal with
          | |- context [layer_combo_text s] =>
              replace (layer_combo_text s) with name by (symmetry; apply H)
          end
      end;
  rewrite ?Hd, ?(catalog_type _ _ Hd);
  cbn [String.eqb Ascii.eqb Bool.eqb]; cbv iota.

(** Whatever the host does, a layer is only ever constructed from the
    connection string of the selected entry. *)
Lemma download_layer_constructs (s0 : State) :
  let I := fun s => made_only (constructs_from name d) s0 s
                    /\ layer_combo_text s = name in
  hoare I (download_layer h) (fun _ => I) (fun _ => I).
Proof.
  intros I. subst I. unfold download_layer. unfold_blocks.
  walk kept_made ltac:(fun H => selection H; clear H).
Qed.

(** Whatever the host does, a dialog without [iface] makes no call on
    the canvas. *)
Lemma download_layer_no_canvas (s0 : State) :
  let I := fun s => made_only (fun c => is_canvas_call c = false) s0 s
                    /\ iface s = None /\ layer_combo_text s = name in
  hoare I (download_layer h) (fun _ => I) (fun _ => I).
Proof.
  intros I. subst I. unfold download_layer. unfold_blocks.
  walk kept_made
       ltac:(fun H => selection H;
                      try match type of H with
                          | context [iface ?s = None] =>
                              replace (iface s) with (@None QgisInterface)
                                by (symmetry; apply H)
                          end;
                      clear H).
Qed.

Section Invalid.
Hypothesis Hinvalid :
  layer_isValid (QgsRasterLayer h (connection_string d) name "wms") = false.

(** Whatever the host does, a layer it reports invalid changes neither
    the project nor the result of the dialog. *)
Lemma download_layer_invalid (s0 : State) :
  let I := fun s => untouched harmless s0 s /\ layer_combo_text s = name in
  hoare I (download_layer h) (fun _ => I) (fun _ => I).
Proof.
  intros I. subst I. unfold download_layer, untouched. unfold_blocks.
  walk kept_made
       ltac:(fun H => selection H; rewrite ?Hinvalid; cbv iota; clear H).
Qed.
End Invalid.

Section CrsSet.
Variable c0 : Crs.
Hypothesis Hset : crs_is_empty c0 = false.

Lemma crs_set_valid : crs_isValid c0 = true.
Proof.
  unfold crs_is_empty in Hset. destruct (crs_isValid c0); [reflexivity|].
  discriminate.
Qed.

Lemma crs_set_authid : String.eqb (crs_authid c0) EmptyString = false.
Proof.
  unfold crs_is_empty in Hset. rewrite crs_set_valid in Hset. exact Hset.
Qed.

Ltac crs_known H :=
  selection H;
  try match type of H with
      | context [project_crs ?s = c0] =>
          replace (project_crs s) with c0 by (symmetry; apply H)
      end;
  rewrite ?crs_set_valid; cbn [negb]; cbv iota; clear H.

(** Whatever the host does, a project that has a reference system
    keeps it. *)
Lemma download_layer_crs_set (s0 : State) :
  let I := fun s => made_only (fun c => is_set_crs c = false) s0 s
                    /\ project_crs s = c0 /\ layer_combo_text s = name in
  hoare I (download_layer h) (fun _ => I) (fun _ => I).
Proof.
  intros I.
  assert (hoare I (project_crs_is_empty h)
                (fun empty s => I s /\ empty = false) (fun _ => I)) as Htest.
  { subst I. unfold project_crs_is_empty.
    walk kept_made ltac:(fun H => crs_known H).
    apply hoare_ret. intros s' Hs. split; [exact Hs | apply crs_set_authid]. }
  subst I.
  unfold download_layer, try_load_layer, load_layer, layer_loaded,
    layer_failed, set_view_on_olsztyn, unexpected_error.
  repeat first
    [ eapply hoare_bind;
      [exact Htest | intros empty; apply hoare_pure; intros ->; cbv iota]
    | walk_step kept_made ltac:(fun H => crs_known H) ].
Qed.
End CrsSet.
End AnyHost.

(** ** From triples to runs *)

Lemma keeps_run {A : Type} (I : State -> Prop) (m : M A) (s : State) :
  hoare I m (fun _ => I) (fun _ => I) -> I s -> I (snd (m s)).
Proof.
  intros H Hs. specialize (H s Hs). destruct (m s) as [[a|e] s']; exact H.
Qed.

Lemma calls_made_quiet (h : Host) (s : State) (name : string)
    (d : LayerInfo) :
  quiet h -> layer_combo_text s = name -> get layers name = Some d ->
  calls_made (download_layer h) s = quiet_calls h s name d.
Proof.
  intros Hq Ht Hd. apply calls_made_eq.
  rewrite (download_layer_quiet h Hq s name d Ht Hd). reflexivity.
Qed.

Lemma filter_none {A : Type} (f : A -> bool) (l : list A) :
  Forall (fun x => f x = false) l -> filter f l = [].
Proof.
  induction 1 as [|x l Hx _ IH]; cbn; [reflexivity|]. now rewrite Hx.
Qed.

Lemma stub_host_quiet : quiet stub_host.
Proof. intros history c. reflexivity. Qed.

Lemma offline_host_quiet : quiet offline_host.
Proof. intros history c. reflexivity. Qed.

Lemma failing_host_outside :
  forall history c,
    outside_try c = true -> raises failing_host history c = None.
Proof. intros history c. destruct c; (reflexivity || discriminate). Qed.

(** * The catalog and the extent *)

(** C6.  Every display name of the catalog is found, and the definition
    found has a URL template that is not empty and contains each of the
    placeholders [{z}], [{x}] and [{y}]; a name that is not a key of the
    catalog is answered with [None]. *)
Theorem catalog_lookup (name : string) :
  (In name (keys layers) ->
   exists d, get layers name = Some d
     /\ url d <> EmptyString
     /\ contains "{z}" (url d) = true
     /\ contains "{x}" (url d) = true
     /\ contains "{y}" (url d) = true)
  /\ (~ In name (keys layers) -> get layers name = None).
Proof.
  split.
  - intros Hin. destruct (get_Some_key _ _ Hin) as [d Hd].
    exists d. split; [exact Hd|]. revert name d Hd Hin.
    apply (catalog_all (fun name d => In name (keys layers) -> _)).
    repeat (apply Forall_cons || apply Forall_nil); intros _; cbn;
      repeat split; (discriminate || reflexivity).
  - apply get_None.
Qed.

Lemma catalog_lookup_witness :
  (exists d, get layers "Transport" = Some d
     /\ url d <> EmptyString
     /\ contains "{z}" (url d) = true
     /\ contains "{x}" (url d) = true
     /\ contains "{y}" (url d) = true)
  /\ get layers "Ortofotomapa" = None.
Proof.
  split.
  - apply (catalog_lookup "Transport"). cbn. tauto.
  - apply (catalog_lookup "Ortofotomapa"). cbn. intuition discriminate.
Defined.

(** C7.  Split at the commas, the fixed extent string gives exactly
    four pieces; read as numbers they are west 2272000, south 7129000,
    east 2288000 and north 7145000, with west below east and south
    below north. *)
Theorem fixed_extent_parses :
  olsztyn_bbox = "2272000,7129000,2288000,7145000"
  /\ split "," olsztyn_bbox = ["2272000"; "7129000"; "2288000"; "7145000"]
  /\ exists west south east north,
       map float (split "," olsztyn_bbox)
       = [inr west; inr south; inr east; inr north]
       /\ west = 2272000 /\ south = 7129000
       /\ east = 2288000 /\ north = 7145000
       /\ west < east /\ south < north.
Proof.
  split; [reflexivity|]. split; [reflexivity|].
  exists 2272000, 7129000, 2288000, 7145000.
  repeat split; reflexivity.
Qed.

(** * The run that succeeds *)

(** C1.  With "Standardowa mapa OSM" selected, a host that raises
    nothing and reports every layer valid, and a dialog that has its
    [iface], [download_layer] calls [addMapLayer] exactly once and
    [setExtent] exactly once, the latter with the box
    (2272000, 7129000, 2288000, 7145000); the zoom that follows is to
    the same box. *)
Theorem osm_end_to_end (h : Host) (s : State) :
  quiet h -> always_valid h ->
  layer_combo_text s = "Standardowa mapa OSM" ->
  iface s <> None ->
  length (filter is_add_map_layer (calls_made (download_layer h) s)) = 1%nat
  /\ filter is_set_extent (calls_made (download_layer h) s)
     = [CanvasSetExtent {| xMinimum := 2272000; yMinimum := 7129000;
                           xMaximum := 2288000; yMaximum := 7145000 |}]
  /\ forall extent,
       In (CanvasZoomToFeatureExtent extent)
          (calls_made (download_layer h) s) ->
       extent = {| xMinimum := 2272000; yMinimum := 7129000;
                   xMaximum := 2288000; yMaximum := 7145000 |}.
Proof.
  intros Hq Hv Ht Hi.
  rewrite (calls_made_quiet h s _ _ Hq Ht eq_refl).
  unfold quiet_calls, loaded_calls, crs_test_calls, crs_set_calls, view_calls.
  rewrite Hv.
  destruct (iface s); [clear Hi | contradiction].
  destruct (crs_isValid (project_crs s)), (crs_is_empty (project_crs s));
    (split; [reflexivity|]; split; [reflexivity|]);
    intros extent Hin; cbn in Hin;
    repeat (destruct Hin as [Hin|Hin]; [try discriminate|]);
    try contradiction; injection Hin as <-; reflexivity.
Qed.

Lemma osm_end_to_end_witness :
  length (filter is_add_map_layer
            (calls_made (download_layer stub_host) new_dialog)) = 1%nat
  /\ filter is_set_extent (calls_made (download_layer stub_host) new_dialog)
     = [CanvasSetExtent {| xMinimum := 2272000; yMinimum := 7129000;
                           xMaximum := 2288000; yMaximum := 7145000 |}]
  /\ forall extent,
       In (CanvasZoomToFeatureExtent extent)
          (calls_made (download_layer stub_host) new_dialog) ->
       extent = {| xMinimum := 2272000; yMinimum := 7129000;
                   xMaximum := 2288000; yMaximum := 7145000 |}.
Proof.
  apply (osm_end_to_end stub_host new_dialog).
  - exact stub_host_quiet.
  - intros uri name provider. reflexivity.
  - reflexivity.
  - discriminate.
Defined.

(** C2.  For every entry of the catalog: when the host raises nothing,
    reports the layer valid and the project has no reference system,
    [setCrs] is called exactly once, with the reference system of the
    entry's identifier, the project ends with that reference system and
    the user is told; when the project has a reference system, [setCrs]
    is not called, whatever the host does, and the project keeps it. *)
Theorem project_crs_set_when_empty (h : Host) (s : State) (name : string)
    (d : LayerInfo) :
  get layers name = Some d -> layer_combo_text s = name ->
  (quiet h ->
   layer_isValid (QgsRasterLayer h (connection_string d) name "wms") = true ->
   crs_is_empty (project_crs s) = true ->
   filter is_set_crs (calls_made (download_layer h) s)
   = [ProjectSetCrs (QgsCoordinateReferenceSystem h (crs d))]
   /\ project_crs (snd (download_layer h s))
      = QgsCoordinateReferenceSystem h (crs d)
   /\ In (MsgInformation "Informacja"
            "Ustawiono CRS projektu na EPSG:3857 (Web Mercator)")
         (calls_made (download_layer h) s))
  /\ (crs_is_empty (project_crs s) = false ->
      filter is_set_crs (calls_made (download_layer h) s) = []
      /\ project_crs (snd (download_layer h s)) = project_crs s).
Proof.
  intros Hd Ht. split.
  - intros Hq Hv He.
    rewrite (calls_made_quiet h s name d Hq Ht Hd).
    rewrite (download_layer_quiet h Hq s name d Ht Hd).
    rewrite (catalog_crs _ _ Hd).
    unfold quiet_final, quiet_calls, loaded_calls, crs_test_calls,
      crs_set_calls, view_calls.
    cbn [snd project_crs]. rewrite Hv, He.
    destruct (iface s), (crs_isValid (project_crs s)); cbn;
      repeat split; auto 20.
  - intros He.
    destruct (keeps_run _ _ s
                (download_layer_crs_set h name d Hd (project_crs s) He s))
      as (Hm & Hc & _).
    + split; [apply made_only_refl | auto].
    + split; [|exact Hc].
      apply filter_none, made_only_calls_made, Hm.
Qed.

Lemma project_crs_set_when_empty_witness :
  (filter is_set_crs (calls_made (download_layer stub_host) new_dialog)
   = [ProjectSetCrs (QgsCoordinateReferenceSystem stub_host "EPSG:3857")]
   /\ project_crs (snd (download_layer stub_host new_dialog))
      = QgsCoordinateReferenceSystem stub_host "EPSG:3857"
   /\ In (MsgInformation "Informacja"
            "Ustawiono CRS projektu na EPSG:3857 (Web Mercator)")
         (calls_made (download_layer stub_host) new_dialog))
  /\ (filter is_set_crs
        (calls_made (download_layer failing_host) dialog_on_project) = []
      /\ project_crs (snd (download_layer failing_host dialog_on_project))
         = epsg_2180).
Proof.
  split.
  - refine (proj1 (project_crs_set_when_empty stub_host new_dialog
                     "Standardowa mapa OSM" osm_info eq_refl eq_refl) _ _ _).
    + exact stub_host_quiet.
    + reflexivity.
    + reflexivity.
  - refine (proj2 (project_crs_set_when_empty failing_host dialog_on_project
                     "Standardowa mapa OSM" osm_info eq_refl eq_refl) _).
    reflexivity.
Defined.

(** C5.  For every entry of the catalog, the connection string is the
    five fields [type=xyz], [url=], [zmin=], [zmax=] and [crs=] in this
    order, joined by [&], with the values of the entry; whatever the
    host does, a raster layer is only constructed from this string,
    under the selected name and with the provider [wms]; and when the
    host raises nothing it is constructed exactly once. *)
Theorem connection_string_passed (h : Host) (s : State) (name : string)
    (d : LayerInfo) :
  get layers name = Some d -> layer_combo_text s = name ->
  connection_string d
  = ("type=xyz&url=" ++ url d
     ++ "&zmin=" ++ str_of_int (zmin d)
     ++ "&zmax=" ++ str_of_int (zmax d)
     ++ "&crs=" ++ crs d)%string
  /\ (forall uri layer_name provider,
        In (NewRasterLayer uri layer_name provider)
           (calls_made (download_layer h) s) ->
        uri = connection_string d /\ layer_name = name /\ provider = "wms")
  /\ (quiet h ->
      filter is_new_raster_layer (calls_made (download_layer h) s)
      = [NewRasterLayer (connection_string d) name "wms"]).
Proof.
  intros Hd Ht. split; [reflexivity|]. split.
  - destruct (keeps_run _ _ s (download_layer_constructs h name d Hd s))
      as (Hm & _).
    { split; [apply made_only_refl | exact Ht]. }
    apply made_only_calls_made in Hm.
    rewrite Forall_forall in Hm. intros uri layer_name provider Hin.
    exact (Hm _ Hin).
  - intros Hq. rewrite (calls_made_quiet h s name d Hq Ht Hd).
    unfold quiet_calls, loaded_calls, failed_calls, crs_test_calls,
      crs_set_calls, view_calls.
    destruct (layer_isValid _);
      [destruct (crs_isValid (project_crs s)),
         (crs_is_empty (project_crs s)), (iface s)
      | destruct (layer_error _)];
      reflexivity.
Qed.

Lemma connection_string_passed_witness :
  connection_string osm_info
  = "type=xyz&url=https://tile.openstreetmap.org/{z}/{x}/{y}.png&zmin=0&zmax=19&crs=EPSG:3857"
  /\ (forall uri layer_name provider,
        In (NewRasterLayer uri layer_name provider)
           (calls_made (download_layer stub_host) new_dialog) ->
        uri = connection_string osm_info
        /\ layer_name = "Standardowa mapa OSM" /\ provider = "wms")
  /\ filter is_new_raster_layer
       (calls_made (download_layer stub_host) new_dialog)
     = [NewRasterLayer (connection_string osm_info)
          "Standardowa mapa OSM" "wms"].
Proof.
  destruct (connection_string_passed stub_host new_dialog
              "Standardowa mapa OSM" osm_info eq_refl eq_refl)
    as (Hshape & Hany & Hquiet).
  split; [exact Hshape|]. split; [exact Hany|].
  apply Hquiet. exact stub_host_quiet.
Defined.

(** C10.  When the dialog was built with no [iface]: whatever the host
    does, [download_layer] makes no call on the map canvas; and when the
    host raises nothing and the layer is valid, the layer is still added
    to the project, the success notice is still shown, its text still
    saying that the view was set on the Olsztyn area, and the dialog is
    accepted. *)
Theorem null_iface_skips_canvas (h : Host) (s : State) (name : string)
    (d : LayerInfo) :
  iface s = None ->
  get layers name = Some d -> layer_combo_text s = name ->
  Forall (fun c => is_canvas_call c = false)
         (calls_made (download_layer h) s)
  /\ (quiet h ->
      layer_isValid (QgsRasterLayer h (connection_string d) name "wms")
      = true ->
      filter is_add_map_layer (calls_made (download_layer h) s)
      = [ProjectAddMapLayer
           (QgsRasterLayer h (connection_string d) name "wms")]
      /\ project_layers (snd (download_layer h s))
         = project_layers s
           ++ [QgsRasterLayer h (connection_string d) name "wms"]
      /\ (exists text,
            In (MsgInformation "Sukces" text)
               (calls_made (download_layer h) s)
            /\ contains "Widok ustawiony na obszar Olsztyna." text = true)
      /\ accepted (snd (download_layer h s)) = true).
Proof.
  intros Hi Hd Ht. split.
  - destruct (keeps_run _ _ s (download_layer_no_canvas h name d Hd s))
      as (Hm & _).
    { repeat split; auto. apply made_only_refl. }
    exact (made_only_calls_made _ _ _ Hm).
  - intros Hq Hv.
    rewrite (calls_made_quiet h s name d Hq Ht Hd).
    rewrite (download_layer_quiet h Hq s name d Ht Hd).
    unfold quiet_final, quiet_calls, loaded_calls, crs_test_calls,
      crs_set_calls, view_calls.
    cbn [snd project_layers accepted]. rewrite Hv, Hi.
    repeat split.
    + destruct (crs_isValid _), (crs_is_empty _); reflexivity.
    + exists (success_text name d (info_text_of d)). split.
      * destruct (crs_isValid _), (crs_is_empty _); cbn; auto 20.
      * unfold success_text. do 9 apply contains_skip.
        apply contains_end.
Qed.

Lemma null_iface_skips_canvas_witness :
  Forall (fun c => is_canvas_call c = false)
         (calls_made (download_layer stub_host) dialog_without_iface)
  /\ (exists layer,
         filter is_add_map_layer
           (calls_made (download_layer stub_host) dialog_without_iface)
         = [ProjectAddMapLayer layer]
         /\ project_layers (snd (download_layer stub_host dialog_without_iface))
            = [layer])
  /\ (exists text,
         In (MsgInformation "Sukces" text)
            (calls_made (download_layer stub_host) dialog_without_iface)
         /\ contains "Widok ustawiony na obszar Olsztyna." text = true)
  /\ accepted (snd (download_layer stub_host dialog_without_iface)) = true.
Proof.
  destruct (null_iface_skips_canvas stub_host dialog_without_iface
              "Standardowa mapa OSM" osm_info eq_refl eq_refl eq_refl)
    as [Hnone Hrun].
  destruct Hrun as (Hadd & Hlayers & Htext & Hacc).
  - exact stub_host_quiet.
  - reflexivity.
  - repeat split; eauto.
Defined.

(** * The runs that fail *)

(** C3.  When the selected name is not a key of the catalog,
    [download_layer] reads the combo box and shows the warning
    "Nie wybrano warstwy." and does nothing else: whatever the host does,
    no layer is constructed, no call changes the project, no call goes to
    the canvas, and the project and the dialog's result stay as they
    were. *)
Theorem unknown_name_only_warns (h : Host) (s : State) :
  ~ In (layer_combo_text s) (keys layers) ->
  (raises h (calls s) ComboCurrentText = None ->
   calls_made (download_layer h) s
   = [ComboCurrentText; MsgWarning "Błąd" "Nie wybrano warstwy."])
  /\ Forall (fun c => is_new_raster_layer c = false
                      /\ is_project_mutation c = false
                      /\ is_canvas_call c = false)
            (calls_made (download_layer h) s)
  /\ project_crs (snd (download_layer h s)) = project_crs s
  /\ project_layers (snd (download_layer h s)) = project_layers s
  /\ accepted (snd (download_layer h s)) = accepted s.
Proof.
  intros Hk. apply get_None in Hk.
  assert (exists new,
             calls (snd (download_layer h s)) = calls s ++ new
             /\ (raises h (calls s) ComboCurrentText = None ->
                 new = [ComboCurrentText;
                        MsgWarning "Błąd" "Nie wybrano warstwy."])
             /\ Forall (fun c => is_new_raster_layer c = false
                                 /\ is_project_mutation c = false
                                 /\ is_canvas_call c = false) new
             /\ project_crs (snd (download_layer h s)) = project_crs s
             /\ project_layers (snd (download_layer h s)) = project_layers s
             /\ accepted (snd (download_layer h s)) = accepted s)
    as (new & Hc & H).
  { unfold download_layer, bind, call.
    destruct (raises h (calls s) ComboCurrentText) eqn:R1; state_simpl.
    - exists [ComboCurrentText]. repeat split; auto; discriminate.
    - rewrite Hk.
      destruct (raises h _ (MsgWarning _ _)); state_simpl;
        (eexists; split; [tidy_calls; reflexivity|]); repeat split; auto. }
  rewrite (calls_made_eq _ _ _ Hc). exact H.
Qed.

Lemma unknown_name_only_warns_witness :
  calls_made (download_layer stub_host) dialog_unknown_name
  = [ComboCurrentText; MsgWarning "Błąd" "Nie wybrano warstwy."]
  /\ Forall (fun c => is_new_raster_layer c = false
                      /\ is_project_mutation c = false
                      /\ is_canvas_call c = false)
            (calls_made (download_layer stub_host) dialog_unknown_name)
  /\ project_crs (snd (download_layer stub_host dialog_unknown_name))
     = project_crs dialog_unknown_name
  /\ project_layers (snd (download_layer stub_host dialog_unknown_name))
     = project_layers dialog_unknown_name
  /\ accepted (snd (download_layer stub_host dialog_unknown_name))
     = accepted dialog_unknown_name.
Proof.
  destruct (unknown_name_only_warns stub_host dialog_unknown_name)
    as (Hwarn & Hrest).
  - cbn. intuition discriminate.
  - split; [apply Hwarn; reflexivity | exact Hrest].
Defined.

(** C4.  For every entry of the catalog whose layer the host reports
    invalid: whatever the host does, [download_layer] makes no call that
    changes the project and does not accept the dialog, and the
    project's layers, its reference system and the dialog's result stay
    as they were; when the host raises nothing, a warning is shown whose
    text contains the message of the layer's error and the URL template
    of the entry. *)
Theorem invalid_layer_is_reported (h : Host) (s : State) (name : string)
    (d : LayerInfo) :
  get layers name = Some d -> layer_combo_text s = name ->
  layer_isValid (QgsRasterLayer h (connection_string d) name "wms") = false ->
  Forall (fun c => is_add_map_layer c = false /\ is_set_crs c = false
                   /\ is_accept c = false)
         (calls_made (download_layer h) s)
  /\ project_layers (snd (download_layer h s)) = project_layers s
  /\ project_crs (snd (download_layer h s)) = project_crs s
  /\ accepted (snd (download_layer h s)) = accepted s
  /\ (quiet h ->
      exists text,
        In (MsgWarning "Błąd ładowania warstwy" text)
           (calls_made (download_layer h) s)
        /\ contains (url d) text = true
        /\ forall detail,
             layer_error (QgsRasterLayer h (connection_string d) name "wms")
             = Some detail ->
             contains detail text = true).
Proof.
  intros Hd Ht Hinv.
  destruct (keeps_run _ _ s (download_layer_invalid h name d Hd Hinv s))
    as ((Hm & Hc & Hl & Ha) & _).
  { repeat split; auto. apply made_only_refl. }
  repeat split; auto.
  - apply made_only_calls_made in Hm.
    eapply Forall_impl; [|exact Hm]. intros c [Hp Hacc].
    unfold is_project_mutation in Hp. apply orb_false_iff in Hp. tauto.
  - intros Hq.
    set (layer := QgsRasterLayer h (connection_string d) name "wms") in *.
    exists (failure_text name d (error_msg_of layer)).
    rewrite (calls_made_quiet h s name d Hq Ht Hd).
    unfold quiet_calls. fold layer. rewrite Hinv. unfold failed_calls.
    repeat split.
    + destruct (layer_error layer); cbn; auto 10.
    + unfold failure_text. do 18 apply contains_skip. apply contains_end.
    + intros detail Hdet. unfold failure_text, error_msg_of. rewrite Hdet.
      do 15 apply contains_skip. apply contains_prefix.
Qed.

Lemma invalid_layer_is_reported_witness :
  Forall (fun c => is_add_map_layer c = false /\ is_set_crs c = false
                   /\ is_accept c = false)
         (calls_made (download_layer offline_host) new_dialog)
  /\ project_layers (snd (download_layer offline_host new_dialog)) = []
  /\ project_crs (snd (download_layer offline_host new_dialog)) = empty_crs
  /\ accepted (snd (download_layer offline_host new_dialog)) = false
  /\ exists text,
       In (MsgWarning "Błąd ładowania warstwy" text)
          (calls_made (download_layer offline_host) new_dialog)
       /\ contains "https://tile.openstreetmap.org/{z}/{x}/{y}.png" text
          = true
       /\ contains "Cannot connect to tile server" text = true.
Proof.
  destruct (invalid_layer_is_reported offline_host new_dialog
              "Standardowa mapa OSM" osm_info eq_refl eq_refl eq_refl)
    as (Hcalls & Hlayers & Hcrs & Hacc & Hwarn).
  destruct (Hwarn offline_host_quiet) as (text & Hin & Hurl & Hdetail).
  repeat split; try assumption.
  exists text. repeat split; try assumption.
  apply Hdetail. reflexivity.
Defined.

(** * Exceptions *)

(** When the calls outside the body of the [try] raise nothing,
    [download_layer] does not end with an exception. *)
Lemma download_layer_comes_back (h : Host) :
  (forall history c, outside_try c = true -> raises h history c = None) ->
  hoare (fun _ => True) (download_layer h)
        (fun _ _ => True) (fun _ _ => False).
Proof.
  intros Hout.
  assert (forall (A : Type) c eff (ans : State -> A),
             outside_try c = true ->
             hoare (fun _ => True) (call h c eff ans)
                   (fun _ _ => True) (fun _ _ => False)) as Hcall.
  { intros A c eff ans Hc. apply hoare_call; [|auto].
    intros s e _ Hr. rewrite (Hout _ _ Hc) in Hr. discriminate. }
  unfold download_layer.
  eapply hoare_bind; [apply Hcall; reflexivity | intros selected_layer].
  destruct (get layers selected_layer) as [layer_info|];
    [|apply Hcall; reflexivity].
  eapply hoare_bind; [apply Hcall; reflexivity | intros []].
  eapply hoare_bind; [apply Hcall; reflexivity | intros []].
  unfold try_load_layer, unexpected_error.
  apply hoare_try_finally
    with (Q1 := fun _ _ => True) (E1 := fun _ _ => False).
  - apply hoare_try_except with (E1 := fun _ _ => True).
    + apply hoare_trivial.
    + intros e. apply Hcall. reflexivity.
  - intros []. apply Hcall. reflexivity.
  - intros e s [].
Qed.

(** Accepting the dialog is the last thing the body of the [try] does:
    until then, and so whenever the body raises, the dialog's result is
    as it was. *)
Lemma load_layer_raise_open (h : Host) (name : string) (d : LayerInfo)
    (a0 : bool) :
  hoare (fun s => accepted s = a0) (load_layer h name d)
        (fun _ _ => True) (fun _ s => accepted s = a0).
Proof.
  unfold_blocks.
  walk ltac:(intros ? ?; split; assumption) ltac:(fun H => clear H).
  all: first [apply hoare_ret; auto | apply hoare_call; auto].
Qed.

(** C8.  Let the calls [download_layer] makes outside the body of its
    [try] raise nothing.  Then, whatever the selection and whatever the
    calls inside the body do, [download_layer] comes back without an
    exception.  And when the body raises [e] and stops in [s1], the
    critical notice with the text of [e] is shown, the progress bar is
    hidden, nothing else happens, and the dialog has not been
    accepted. *)
Theorem exceptions_are_caught (h : Host) (s : State) :
  (forall history c, outside_try c = true -> raises h history c = None) ->
  (exists s', download_layer h s = (Returns tt, s'))
  /\ (forall name d e s1,
        layer_combo_text s = name -> get layers name = Some d ->
        load_layer h name d (progress_shown s) = (Raises e, s1) ->
        download_layer h s
        = (Returns tt,
           set_progress_bar_visible false
             (record_calls
                [MsgCritical "Błąd"
                   ("Wystąpił nieoczekiwany błąd:" ++ nl ++ str e)%string;
                 ProgressSetVisible false] s1))
        /\ accepted s1 = accepted s).
Proof.
  intros Hout. split.
  - pose proof (download_layer_comes_back h Hout s I) as H.
    destruct (download_layer h s) as [[[]|e] s']; [eauto | contradiction].
  - intros name d e s1 Ht Hd Hraise. split.
    + unfold download_layer, bind.
      rewrite call_returns by (apply Hout; reflexivity).
      change (layer_combo_text (same (record_call ComboCurrentText s)))
        with (layer_combo_text s).
      rewrite Ht, Hd.
      rewrite call_returns by (apply Hout; reflexivity).
      rewrite call_returns by (apply Hout; reflexivity).
      match goal with
      | |- _ = ?rhs =>
          change (try_load_layer h name d (progress_shown s) = rhs)
      end.
      unfold try_load_layer, try_finally, try_except, unexpected_error.
      rewrite Hraise.
      rewrite call_returns by (apply Hout; reflexivity).
      rewrite call_returns by (apply Hout; reflexivity).
      reflexivity.
    + pose proof (load_layer_raise_open h name d (accepted s)
                    (progress_shown s) eq_refl) as H.
      rewrite Hraise in H. exact H.
Qed.

Lemma exceptions_are_caught_witness :
  (exists s', download_layer failing_host new_dialog = (Returns tt, s'))
  /\ exists s1,
       download_layer failing_host new_dialog
       = (Returns tt,
          set_progress_bar_visible false
            (record_calls
               [MsgCritical "Błąd"
                  ("Wystąpił nieoczekiwany błąd:" ++ nl
                   ++ "wrapped C/C++ object has been deleted")%string;
                ProgressSetVisible false] s1))
       /\ accepted s1 = false.
Proof.
  destruct (exceptions_are_caught failing_host new_dialog
              failing_host_outside) as [Hback Hcaught].
  split; [exact Hback|].
  exists (snd (load_layer failing_host "Standardowa mapa OSM" osm_info
                 (progress_shown new_dialog))).
  apply (Hcaught "Standardowa mapa OSM" osm_info
           (Exception "wrapped C/C++ object has been deleted") _
           eq_refl eq_refl).
  vm_compute. reflexivity.
Defined.

(** * The progress bar *)

(** A [try] statement that comes back has run its [finally] block to
    the end: the last call recorded hides the progress bar. *)
Lemma try_load_layer_hides (h : Host) (name : string) (d : LayerInfo)
    (s s' : State) :
  try_load_layer h name d s = (Returns tt, s') ->
  progress_bar_visible s' = false
  /\ exists before, calls s' = before ++ [ProgressSetVisible false].
Proof.
  unfold try_load_layer, try_finally, call.
  destruct (try_except _ _ s) as [o s1].
  destruct (raises h (calls s1) (ProgressSetVisible false)).
  - discriminate.
  - intros [= _ <-]. split; [reflexivity|]. exists (calls s1). reflexivity.
Qed.

Lemma download_layer_stays_hidden (h : Host) (s s' : State) :
  progress_bar_visible s = false ->
  download_layer h s = (Returns tt, s') ->
  progress_bar_visible s' = false.
Proof.
  intros Hs. unfold download_layer, bind, call.
  destruct (raises h (calls s) ComboCurrentText); [discriminate|].
  state_simpl. destruct (get layers (layer_combo_text s)) as [d|].
  - destruct (raises h _ (ProgressSetVisible true)); [discriminate|].
    destruct (raises h _ (ProgressSetRange 0 0)); [discriminate|].
    intros H. apply try_load_layer_hides in H. apply H.
  - destruct (raises h _ (MsgWarning _ _)); [discriminate|].
    intros [= <-]. exact Hs.
Qed.

(** Between two calls of [download_layer] the progress bar is hidden. *)
Lemma reachable_hidden (s : State) :
  reachable s -> progress_bar_visible s = false.
Proof.
  induction 1 as [iface0 crs0 layers0 | s text _ IH | s c _ IH
                 | h s s' _ IH Hrun].
  - reflexivity.
  - exact IH.
  - exact IH.
  - exact (download_layer_stays_hidden h s s' IH Hrun).
Qed.

(** Whatever the host does, the body of the [try] and its handler leave
    the progress bar alone: they make no [setVisible] call on it, and
    it is as visible at their end as at their start. *)
Lemma try_body_keeps_bar (h : Host) (name : string) (d : LayerInfo)
    (s0 : State) :
  let I := fun s =>
             made_only (fun c => is_progress_visible c = false) s0 s
             /\ progress_bar_visible s = progress_bar_visible s0 in
  hoare I (try_except (load_layer h name d) (unexpected_error h))
        (fun _ => I) (fun _ => I).
Proof.
  intros I. subst I. unfold_blocks.
  walk kept_made ltac:(fun H => cbv beta zeta; clear H).
Qed.

(** A run that found its entry and came back: it showed the bar, ran
    the [try] with the bar showing, and hid it with its last call. *)
Lemma download_layer_shows_then_hides (h : Host) (s s' : State)
    (d : LayerInfo) :
  get layers (layer_combo_text s) = Some d ->
  download_layer h s = (Returns tt, s') ->
  exists body s2,
    calls s' = calls s
               ++ [ComboCurrentText; ProgressSetVisible true;
                   ProgressSetRange 0 0]
               ++ body ++ [ProgressSetVisible false]
    /\ Forall (fun c => is_progress_visible c = false) body
    /\ progress_bar_visible s2 = true
    /\ s' = set_progress_bar_visible false
              (record_call (ProgressSetVisible false) s2).
Proof.
  intros Hd. unfold download_layer, bind, call.
  destruct (raises h (calls s) ComboCurrentText); [discriminate|].
  state_simpl. rewrite Hd.
  destruct (raises h _ (ProgressSetVisible true)); [discriminate|].
  destruct (raises h _ (ProgressSetRange 0 0)); [discriminate|].
  unfold same. fold (progress_shown s). unfold try_load_layer, try_finally.
  pose proof (keeps_run _ _ (progress_shown s)
                (try_body_keeps_bar h (layer_combo_text s) d
                   (progress_shown s))
                (conj (made_only_refl _ _) eq_refl))
    as ((body & Hc & Hbody) & Hv).
  destruct (try_except _ _ (progress_shown s)) as [o s2]. cbn [snd] in *.
  unfold call. cbv beta iota.
  destruct (raises h (calls s2) (ProgressSetVisible false)); [discriminate|].
  intros [= _ <-]. exists body, s2. repeat split.
  - state_simpl. rewrite Hc. unfold progress_shown. state_simpl.
    rewrite <- !app_assoc. reflexivity.
  - exact Hbody.
  - rewrite Hv. reflexivity.
Qed.

(** C9.  Whenever [download_layer] comes back, be it after a success,
    after a layer that did not load or after an exception that was
    caught, and from whatever state it was called:

    - with an entry selected, the calls it made are the reading of the
      combo box, [setVisible(True)], [setRange(0, 0)], then calls none
      of which shows or hides the bar, then [setVisible(False)] as the
      last call; the bar was showing in the state that last call was
      made in, and is hidden in the state the run ends in;
    - with no entry selected, no call shows or hides the bar and the
      bar is as it was;
    - so that on the dialog as it is built and used, the bar is hidden
      after every run. *)
Theorem progress_bar_left_hidden (h : Host) (s s' : State) :
  download_layer h s = (Returns tt, s') ->
  (forall d, get layers (layer_combo_text s) = Some d ->
     exists body s2,
       calls_made (download_layer h) s
       = [ComboCurrentText; ProgressSetVisible true; ProgressSetRange 0 0]
         ++ body ++ [ProgressSetVisible false]
       /\ Forall (fun c => is_progress_visible c = false) body
       /\ progress_bar_visible s2 = true
       /\ s' = set_progress_bar_visible false
                 (record_call (ProgressSetVisible false) s2)
       /\ progress_bar_visible s' = false)
  /\ (get layers (layer_combo_text s) = None ->
      Forall (fun c => is_progress_visible c = false)
             (calls_made (download_layer h) s)
      /\ progress_bar_visible s' = progress_bar_visible s)
  /\ (reachable s -> progress_bar_visible s' = false).
Proof.
  intros Hrun. split; [|split].
  - intros d Hd.
    destruct (download_layer_shows_then_hides h s s' d Hd Hrun)
      as (body & s2 & Hc & Hbody & Hv & Hs').
    exists body, s2. repeat split; try assumption.
    + apply calls_made_eq. rewrite Hrun. exact Hc.
    + rewrite Hs'. reflexivity.
  - intros Hn. revert Hrun. unfold calls_made, download_layer, bind, call.
    destruct (raises h (calls s) ComboCurrentText); [discriminate|].
    state_simpl. rewrite Hn.
    destruct (raises h _ (MsgWarning _ _)); [discriminate|].
    intros [= <-]. state_simpl. split; [|reflexivity].
    rewrite <- app_assoc, skipn_length_app. repeat constructor.
  - intros Hr.
    exact (download_layer_stays_hidden h s s' (reachable_hidden s Hr) Hrun).
Qed.

Lemma progress_bar_left_hidden_witness :
  (exists body s2,
     calls_made (download_layer failing_host) new_dialog
     = [ComboCurrentText; ProgressSetVisible true; ProgressSetRange 0 0]
       ++ body ++ [ProgressSetVisible false]
     /\ Forall (fun c => is_progress_visible c = false) body
     /\ progress_bar_visible s2 = true
     /\ snd (download_layer failing_host new_dialog)
        = set_progress_bar_visible false
            (record_call (ProgressSetVisible false) s2)
     /\ progress_bar_visible (snd (download_layer failing_host new_dialog))
        = false)
  /\ progress_bar_visible (snd (download_layer failing_host new_dialog))
     = false.
Proof.
  destruct (progress_bar_left_hidden failing_host new_dialog
              (snd (download_layer failing_host new_dialog)))
    as (Hfound & _ & Hreach).
  - vm_compute. reflexivity.
  - split; [apply (Hfound osm_info); reflexivity | apply Hreach, reach_init].
Defined.

(** * The combo box and the catalog *)

Lemma get_entry {V : Type} (d : dict V) (key : string) (v : V) :
  NoDup (keys d) -> In (key, v) d -> get d key = Some v.
Proof.
  unfold get. induction d as [|[k w] d IH]; cbn; [contradiction|].
  intros Hnd [H|H].
  - injection H as -> ->. now rewrite String.eqb_refl.
  - inversion Hnd as [|? ? Hk Hrest]; subst.
    destruct (String.eqb_spec k key) as [->|ne].
    + exfalso. apply Hk. change key with (fst (key, v)). now apply in_map.
    + apply IH; assumption.
Qed.

Lemma catalog_keys_distinct : NoDup (keys layers).
Proof.
  repeat constructor; cbn; intuition discriminate.
Qed.

Lemma fill_combo_items (names : list string) (s : State) :
  layer_combo_items
    (fold_left (fun s' layer_name => combo_addItem layer_name s') names s)
  = layer_combo_items s ++ names.
Proof.
  revert s. induction names as [|n names IH]; intros s; cbn [fold_left].
  - now rewrite app_nil_r.
  - rewrite IH. cbn. now rewrite <- app_assoc.
Qed.

Lemma fill_combo_text (names : list string) (s : State) :
  layer_combo_text
    (fold_left (fun s' layer_name => combo_addItem layer_name s') names s)
  = match layer_combo_items s, names with
    | [], first :: _ => first
    | _, _ => layer_combo_text s
    end.
Proof.
  revert s. induction names as [|n names IH]; intros s; cbn [fold_left].
  - destruct (layer_combo_items s); reflexivity.
  - rewrite IH. cbn. destruct (layer_combo_items s); reflexivity.
Qed.

(** X1.  The combo box of a new dialog offers the names of the catalog,
    each once and in the order of the dictionary, and its current text
    is the first of them, "Standardowa mapa OSM" (lines 96-97); every
    name it offers is found by the lookup of line 147, and every entry
    written in lines 52-93 is the one the lookup finds under its name:
    no entry hides another. *)
Theorem combo_offers_catalog (iface0 : option QgisInterface) (crs0 : Crs)
    (layers0 : list RasterLayer) :
  layer_combo_items (__init__ iface0 crs0 layers0) = keys layers
  /\ NoDup (layer_combo_items (__init__ iface0 crs0 layers0))
  /\ hd_error (layer_combo_items (__init__ iface0 crs0 layers0))
     = Some (layer_combo_text (__init__ iface0 crs0 layers0))
  /\ layer_combo_text (__init__ iface0 crs0 layers0) = "Standardowa mapa OSM"
  /\ In (layer_combo_text (__init__ iface0 crs0 layers0))
        (layer_combo_items (__init__ iface0 crs0 layers0))
  /\ (forall name, In name (layer_combo_items (__init__ iface0 crs0 layers0)) ->
      exists d, In (name, d) layers /\ get layers name = Some d)
  /\ (forall name d, In (name, d) layers -> get layers name = Some d).
Proof.
  set (dialog := __init__ iface0 crs0 layers0).
  assert (layer_combo_items dialog = keys layers) as Hitems.
  { unfold dialog, __init__. cbn [layer_combo_items set_progress_bar_visible].
    rewrite fill_combo_items. reflexivity. }
  assert (layer_combo_text dialog = "Standardowa mapa OSM") as Htext.
  { unfold dialog, __init__. cbn [layer_combo_text set_progress_bar_visible].
    rewrite fill_combo_text. reflexivity. }
  split; [exact Hitems|]. split; [|split; [|split; [|split; [|split]]]].
  - rewrite Hitems. exact catalog_keys_distinct.
  - rewrite Hitems, Htext. reflexivity.
  - exact Htext.
  - rewrite Hitems, Htext. cbn. auto.
  - intros name Hin. rewrite Hitems in Hin.
    destruct (get_Some_key _ _ Hin) as [d Hd].
    exists d. split; [apply get_In, Hd | exact Hd].
  - intros name d. apply get_entry, catalog_keys_distinct.
Qed.

Ltac selected name Hd H :=
  cbv beta zeta;
  try match type of H with
      | context [layer_combo_text ?s = name] =>
          match goal with
          | |- context [layer_combo_text s] =>
              replace (layer_combo_text s) with name by (symmetry; apply H)
          end
      end;
  rewrite ?Hd, ?(catalog_type _ _ Hd);
  cbn [String.eqb Ascii.eqb Bool.eqb]; cbv iota.

(** Whatever the host does, [download_layer] leaves the combo box as it
    was. *)
Lemma download_layer_keeps_combo (h : Host) (items : list string)
    (text : string) :
  let I := fun s => layer_combo_items s = items
                    /\ layer_combo_text s = text in
  hoare I (download_layer h) (fun _ => I) (fun _ => I).
Proof.
  intros I. subst I. unfold download_layer. unfold_blocks.
  walk kept_made ltac:(fun H => cbv beta zeta; clear H).
Qed.

Lemma download_layer_no_selection_warning (h : Host) (name : string)
    (d : LayerInfo) (s0 : State) :
  get layers name = Some d ->
  let I := fun s => made_only (fun c => is_no_selection_warning c = false) s0 s
                    /\ layer_combo_text s = name in
  hoare I (download_layer h) (fun _ => I) (fun _ => I).
Proof.
  intros Hd I. subst I. unfold download_layer. unfold_blocks.
  walk kept_made ltac:(fun H => selected name Hd H; clear H).
Qed.

Lemma picking_offers (s : State) :
  picking s ->
  layer_combo_items s = keys layers
  /\ In (layer_combo_text s) (layer_combo_items s).
Proof.
  induction 1 as [iface0 crs0 layers0 | s name _ [IHi IHt] Hin
                 | s c _ IH | h s o s' _ [IHi IHt] Hrun].
  - unfold __init__.
    cbn [layer_combo_items layer_combo_text set_progress_bar_visible].
    rewrite fill_combo_items, fill_combo_text. cbn. auto.
  - cbn. auto.
  - exact IH.
  - pose proof (keeps_run _ _ s
                  (download_layer_keeps_combo h (layer_combo_items s)
                     (layer_combo_text s)) (conj eq_refl eq_refl)) as [Hi Ht].
    rewrite Hrun in Hi, Ht. cbn [snd] in Hi, Ht. rewrite Hi, Ht. auto.
Qed.

(** X2.  As long as the text of the combo box is one of its items, as
    it is for the box the dialog builds, the lookup of line 147 finds
    an entry, and [download_layer] never asks for the warning
    "Nie wybrano warstwy." of line 150, whatever the host does and
    however many runs came before. *)
Theorem picked_item_is_found (h : Host) (s : State) :
  picking s ->
  get layers (layer_combo_text s) <> None
  /\ Forall (fun c => is_no_selection_warning c = false)
            (calls_made (download_layer h) s).
Proof.
  intros Hp. destruct (picking_offers s Hp) as [Hi Ht].
  rewrite Hi in Ht. destruct (get_Some_key _ _ Ht) as [d Hd].
  split; [congruence|].
  apply made_only_calls_made.
  apply (keeps_run _ _ s
           (download_layer_no_selection_warning h _ d s Hd)).
  split; [apply made_only_refl | reflexivity].
Qed.

Lemma picked_item_is_found_witness :
  get layers (layer_combo_text (set_layer_combo_text "Transport" new_dialog))
  <> None
  /\ Forall (fun c => is_no_selection_warning c = false)
            (calls_made (download_layer failing_host)
               (set_layer_combo_text "Transport" new_dialog)).
Proof.
  apply (picked_item_is_found failing_host
           (set_layer_combo_text "Transport" new_dialog)).
  apply pick_item; [apply pick_init|]. cbn. tauto.
Defined.

(** * The connection string, taken apart again *)

Lemma split_nonempty (sep : ascii) (s : string) : split sep s <> [].
Proof.
  destruct s as [|a s]; unfold split; fold split; [discriminate|].
  destruct (Ascii.eqb a sep); [discriminate|].
  destruct (split sep s); discriminate.
Qed.

Lemma split_cons (sep a : ascii) (s : string) :
  split sep (String a s)
  = if Ascii.eqb a sep then EmptyString :: split sep s
    else match split sep s with
         | [] => [String a EmptyString]
         | piece :: pieces => String a piece :: pieces
         end.
Proof. reflexivity. Qed.

Lemma split_length (sep : ascii) (s : string) :
  length (split sep s) = S (count_char sep s).
Proof.
  induction s as [|a s IH]; [reflexivity|].
  rewrite split_cons. cbn [count_char].
  destruct (Ascii.eqb a sep); cbn [length]; [now rewrite IH|].
  destruct (split sep s) eqn:E; [now apply split_nonempty in E|].
  cbn in *. lia.
Qed.

Lemma count_char_append (c : ascii) (a b : string) :
  count_char c (a ++ b)%string = (count_char c a + count_char c b)%nat.
Proof. induction a as [|x a IH]; cbn; [reflexivity|]. rewrite IH. lia. Qed.

Lemma split_piece (sep : ascii) (a rest : string) :
  count_char sep a = 0%nat ->
  split sep (a ++ String sep rest)%string = a :: split sep rest.
Proof.
  induction a as [|x a IH]; intros H.
  - cbn [append]. rewrite split_cons, Ascii.eqb_refl. reflexivity.
  - cbn [append]. rewrite split_cons. cbn [count_char] in H.
    destruct (Ascii.eqb x sep); [discriminate|]. rewrite IH by exact H.
    reflexivity.
Qed.

Lemma split_last (sep : ascii) (a : string) :
  count_char sep a = 0%nat -> split sep a = [a].
Proof.
  induction a as [|x a IH]; intros H; [reflexivity|].
  rewrite split_cons. cbn [count_char] in H.
  destruct (Ascii.eqb x sep); [discriminate|]. rewrite IH by exact H.
  reflexivity.
Qed.

Lemma count_char_uint (d : Decimal.uint) :
  count_char "&" (NilEmpty.string_of_uint d) = 0%nat.
Proof. induction d; cbn; auto. Qed.

Lemma count_char_str_of_int (n : Z) : count_char "&" (str_of_int n) = 0%nat.
Proof.
  unfold str_of_int, NilZero.string_of_int, NilZero.string_of_uint.
  destruct (Z.to_int n) as [d|d]; destruct d; cbn [count_char Ascii.eqb Bool.eqb Nat.add];
    try reflexivity; apply count_char_uint.
Qed.

Lemma connection_string_unfold (d : LayerInfo) :
  connection_string d
  = ("type=xyz" ++ String "&" (("url=" ++ url d) ++ String "&"
       (("zmin=" ++ str_of_int (zmin d)) ++ String "&"
          (("zmax=" ++ str_of_int (zmax d)) ++ String "&"
             ("crs=" ++ crs d)))))%string.
Proof. reflexivity. Qed.

(** Without [&] in the address and in the reference system, the
    connection string falls apart at [&] into the five parts it was
    joined from. *)
Lemma connection_string_pieces (d : LayerInfo) :
  count_char "&" (url d) = 0%nat -> count_char "&" (crs d) = 0%nat ->
  split "&" (connection_string d)
  = ["type=xyz";
     ("url=" ++ url d)%string;
     ("zmin=" ++ str_of_int (zmin d))%string;
     ("zmax=" ++ str_of_int (zmax d))%string;
     ("crs=" ++ crs d)%string].
Proof.
  intros Hu Hc. rewrite connection_string_unfold.
  rewrite split_piece by reflexivity.
  rewrite split_piece by (rewrite count_char_append; exact Hu).
  rewrite split_piece
    by (rewrite count_char_append, count_char_str_of_int; reflexivity).
  rewrite split_piece
    by (rewrite count_char_append, count_char_str_of_int; reflexivity).
  rewrite split_last by (rewrite count_char_append; exact Hc).
  reflexivity.
Qed.

Lemma catalog_without_ampersand (name : string) (d : LayerInfo) :
  get layers name = Some d ->
  count_char "&" (url d) = 0%nat /\ count_char "&" (crs d) = 0%nat.
Proof. revert name d. apply catalog_all. repeat constructor. Qed.

(** X3.  For every entry of the catalog, the connection string of lines
    159-167 has exactly four [&], and splitting it there gives back the
    five [key=value] parts it was joined from, in their order: no
    address and no reference system of the catalog holds an [&] that
    would shift the parts.  For any other [layer_info] the number of
    pieces is five plus the number of [&] in its address and in its
    reference system. *)
Theorem connection_string_splits (name : string) (d : LayerInfo) :
  get layers name = Some d ->
  split "&" (connection_string d)
  = ["type=xyz";
     ("url=" ++ url d)%string;
     ("zmin=" ++ str_of_int (zmin d))%string;
     ("zmax=" ++ str_of_int (zmax d))%string;
     ("crs=" ++ crs d)%string]
  /\ forall d' : LayerInfo,
       length (split "&" (connection_string d'))
       = (5 + count_char "&" (url d') + count_char "&" (crs d'))%nat.
Proof.
  intros Hd. destruct (catalog_without_ampersand name d Hd) as [Hu Hc].
  split; [exact (connection_string_pieces d Hu Hc)|].
  intros d'. rewrite split_length, connection_string_unfold.
  repeat (rewrite count_char_append; cbn [count_char Ascii.eqb Bool.eqb]).
  rewrite !count_char_str_of_int. lia.
Qed.

Lemma connection_string_splits_witness :
  split "&" (connection_string osm_info)
  = ["type=xyz";
     ("url=" ++ url osm_info)%string;
     ("zmin=" ++ str_of_int (zmin osm_info))%string;
     ("zmax=" ++ str_of_int (zmax osm_info))%string;
     ("crs=" ++ crs osm_info)%string]
  /\ forall d' : LayerInfo,
       length (split "&" (connection_string d'))
       = (5 + count_char "&" (url d') + count_char "&" (crs d'))%nat.
Proof.
  apply (connection_string_splits "Standardowa mapa OSM" osm_info).
  reflexivity.
Defined.

(** * Further runs in which nothing raises *)

(** X8.  Nothing keeps a layer from being added twice: a second
    dialog on the project the first run left behind, with the same name
    picked, registers the same layer once more.  It does not set the
    project's reference system again, since the first run set one.
    (The host raises nothing, the layer loads, and the reference system
    the host builds for "EPSG:3857" is not itself empty in the sense of
    line 175.) *)
Theorem reopened_dialog_adds_again (h : Host) (s : State) (name : string)
    (d : LayerInfo) :
  quiet h ->
  get layers name = Some d -> layer_combo_text s = name ->
  layer_isValid (QgsRasterLayer h (connection_string d) name "wms") = true ->
  crs_is_empty (QgsCoordinateReferenceSystem h "EPSG:3857") = false ->
  project_layers
    (snd (download_layer h (reopen name (snd (download_layer h s)))))
  = project_layers s
    ++ [QgsRasterLayer h (connection_string d) name "wms";
        QgsRasterLayer h (connection_string d) name "wms"]
  /\ filter is_set_crs
       (calls_made (download_layer h)
          (reopen name (snd (download_layer h s)))) = []
  /\ project_crs
       (snd (download_layer h (reopen name (snd (download_layer h s)))))
     = project_crs (snd (download_layer h s)).
Proof.
  intros Hq Hd Ht Hv Hbuilt.
  rewrite (download_layer_quiet h Hq s name d Ht Hd). cbn [snd].
  set (s1 := quiet_final h s name d).
  assert (crs_is_empty (project_crs s1) = false) as Hset.
  { unfold s1, quiet_final. cbn [project_crs]. rewrite Hv. cbn [andb].
    destruct (crs_is_empty (project_crs s)) eqn:E; assumption. }
  assert (project_layers s1
          = project_layers s
            ++ [QgsRasterLayer h (connection_string d) name "wms"]) as Hl.
  { unfold s1, quiet_final. cbn [project_layers]. now rewrite Hv. }
  rewrite (calls_made_quiet h (reopen name s1) name d Hq eq_refl Hd).
  rewrite (download_layer_quiet h Hq (reopen name s1) name d eq_refl Hd).
  unfold quiet_final at 1 2, quiet_calls, loaded_calls, crs_set_calls,
    crs_test_calls, view_calls.
  cbn [snd project_layers project_crs]. rewrite Hv.
  change (project_crs (reopen name s1)) with (project_crs s1).
  change (project_layers (reopen name s1)) with (project_layers s1).
  rewrite Hset, Hl. cbn [andb]. repeat split.
  - now rewrite <- app_assoc.
  - destruct (crs_isValid (project_crs s1)), (iface (reopen name s1));
      reflexivity.
Qed.

Lemma reopened_dialog_adds_again_witness :
  project_layers
    (snd (download_layer stub_host
            (reopen "Standardowa mapa OSM"
               (snd (download_layer stub_host new_dialog)))))
  = project_layers new_dialog
    ++ [QgsRasterLayer stub_host (connection_string osm_info)
          "Standardowa mapa OSM" "wms";
        QgsRasterLayer stub_host (connection_string osm_info)
          "Standardowa mapa OSM" "wms"]
  /\ filter is_set_crs
       (calls_made (download_layer stub_host)
          (reopen "Standardowa mapa OSM"
             (snd (download_layer stub_host new_dialog)))) = []
  /\ project_crs
       (snd (download_layer stub_host
               (reopen "Standardowa mapa OSM"
                  (snd (download_layer stub_host new_dialog)))))
     = project_crs (snd (download_layer stub_host new_dialog)).
Proof.
  apply (reopened_dialog_adds_again stub_host new_dialog
           "Standardowa mapa OSM" osm_info).
  - exact stub_host_quiet.
  - reflexivity.
  - reflexivity.
  - reflexivity.
  - reflexivity.
Defined.

(** X9.  A project that has a reference system keeps it, while the
    map canvas is set to EPSG:3857 all the same: the canvas call of
    line 205 is made, every such call carries the system built from
    "EPSG:3857", and the project's own system is as it was. *)
Theorem canvas_crs_is_forced (h : Host) (s : State) (name : string)
    (d : LayerInfo) :
  quiet h ->
  get layers name = Some d -> layer_combo_text s = name ->
  layer_isValid (QgsRasterLayer h (connection_string d) name "wms") = true ->
  iface s <> None ->
  crs_is_empty (project_crs s) = false ->
  In (CanvasSetDestinationCrs (QgsCoordinateReferenceSystem h "EPSG:3857"))
     (calls_made (download_layer h) s)
  /\ (forall c, In (CanvasSetDestinationCrs c)
                   (calls_made (download_layer h) s) ->
                c = QgsCoordinateReferenceSystem h "EPSG:3857")
  /\ project_crs (snd (download_layer h s)) = project_crs s.
Proof.
  intros Hq Hd Ht Hv Hi He.
  rewrite (calls_made_quiet h s name d Hq Ht Hd).
  rewrite (download_layer_quiet h Hq s name d Ht Hd).
  unfold quiet_final, quiet_calls, loaded_calls, crs_set_calls,
    crs_test_calls, view_calls.
  cbn [snd project_crs]. rewrite Hv, He. cbn [andb].
  destruct (iface s); [clear Hi | contradiction].
  destruct (crs_isValid (project_crs s)); repeat split; cbn; auto 20;
    intros c Hin;
    repeat (destruct Hin as [Hin|Hin]; [try discriminate|]);
    try contradiction; injection Hin as <-; reflexivity.
Qed.

Lemma canvas_crs_is_forced_witness :
  In (CanvasSetDestinationCrs
        (QgsCoordinateReferenceSystem stub_host "EPSG:3857"))
     (calls_made (download_layer stub_host) dialog_on_project)
  /\ (forall c, In (CanvasSetDestinationCrs c)
                   (calls_made (download_layer stub_host) dialog_on_project) ->
                c = QgsCoordinateReferenceSystem stub_host "EPSG:3857")
  /\ project_crs (snd (download_layer stub_host dialog_on_project))
     = project_crs dialog_on_project.
Proof.
  apply (canvas_crs_is_forced stub_host dialog_on_project
           "Standardowa mapa OSM" osm_info).
  - exact stub_host_quiet.
  - reflexivity.
  - reflexivity.
  - reflexivity.
  - discriminate.
  - reflexivity.
Defined.

(** X10.  A layer that does not load and has no error to report
    ([layer.error()] is falsy): the error is asked for once, its
    message is never asked for, and the warning reads
    "Szczegóły: Nieznany błąd" (line 225). *)
Theorem error_without_detail (h : Host) (s : State) (name : string)
    (d : LayerInfo) :
  quiet h ->
  get layers name = Some d -> layer_combo_text s = name ->
  layer_isValid (QgsRasterLayer h (connection_string d) name "wms") = false ->
  layer_error (QgsRasterLayer h (connection_string d) name "wms") = None ->
  filter is_layer_error (calls_made (download_layer h) s) = [LayerError]
  /\ filter is_error_message (calls_made (download_layer h) s) = []
  /\ exists text,
       In (MsgWarning "Błąd ładowania warstwy" text)
          (calls_made (download_layer h) s)
       /\ contains "Szczegóły: Nieznany błąd" text = true.
Proof.
  intros Hq Hd Ht Hinv Herr.
  rewrite (calls_made_quiet h s name d Hq Ht Hd).
  unfold quiet_calls, failed_calls, error_msg_of. rewrite Hinv, Herr.
  repeat split.
  exists (failure_text name d "Nieznany błąd"). split; [cbn; auto 10|].
  unfold failure_text. do 14 apply contains_skip.
  apply (contains_prefix "Szczegóły: Nieznany błąd").
Qed.

Lemma error_without_detail_witness :
  filter is_layer_error (calls_made (download_layer silent_host) new_dialog)
  = [LayerError]
  /\ filter is_error_message
       (calls_made (download_layer silent_host) new_dialog) = []
  /\ exists text,
       In (MsgWarning "Błąd ładowania warstwy" text)
          (calls_made (download_layer silent_host) new_dialog)
       /\ contains "Szczegóły: Nieznany błąd" text = true.
Proof.
  apply (error_without_detail silent_host new_dialog "Standardowa mapa OSM"
           osm_info).
  - intros history c. reflexivity.
  - reflexivity.
  - reflexivity.
  - reflexivity.
  - reflexivity.
Defined.

(** * What every run does, whatever the host does *)

Lemma made_some_step (p : Call -> bool) (s0 s s' : State) (c : Call) :
  made_some p s0 s -> calls s' = calls s ++ [c] -> made_some p s0 s'.
Proof.
  intros (new & Hc & Hp) Hs'. exists (new ++ [c]). split.
  - rewrite Hs', Hc, app_assoc. reflexivity.
  - rewrite existsb_app, Hp. reflexivity.
Qed.

Lemma made_some_now (p : Call -> bool) (ok : Call -> Prop) (s0 s s' : State)
    (c : Call) :
  made_only ok s0 s -> calls s' = calls s ++ [c] -> p c = true ->
  made_some p s0 s'.
Proof.
  intros (new & Hc & _) Hs' Hp. exists (new ++ [c]). split.
  - rewrite Hs', Hc, app_assoc. reflexivity.
  - rewrite existsb_app. cbn. rewrite Hp. now rewrite orb_true_r.
Qed.

Lemma made_some_calls_made {A : Type} (p : Call -> bool) (m : M A)
    (s : State) :
  made_some p s (snd (m s)) -> existsb p (calls_made m s) = true.
Proof.
  intros (new & Hc & Hp). rewrite (calls_made_eq _ _ _ Hc). exact Hp.
Qed.

(** ** Assertions that change along a statement *)

Section Phase.
Context {A B : Type}.
Variables (h : Host) (I : State -> Prop).
Context {Q : B -> State -> Prop} {E : Exn -> State -> Prop}.
Hypothesis I_E : forall e s, I s -> E e s.

Lemma phase_call (c : Call) (eff : State -> State) (ans : State -> B) :
  kept_by I c eff -> (forall a s, I s -> Q a s) ->
  hoare I (call h c eff ans) Q E.
Proof.
  intros K HQ. apply hoare_call.
  - intros s e Hs _. apply I_E, K, Hs.
  - intros s Hs _. apply HQ, K, Hs.
Qed.

Lemma phase_bind_call (c : Call) (eff : State -> State) (ans : State -> A)
    (k : A -> M B) :
  kept_by I c eff ->
  (forall s, I s -> hoare I (k (ans s)) Q E) ->
  hoare I (bind (call h c eff ans) k) Q E.
Proof.
  intros K Hk. apply hoare_bind_call with (R := I).
  - intros s e Hs _. apply I_E, K, Hs.
  - intros s Hs. apply K, Hs.
  - intros s1 H1. apply (hoare_from (P := I)); auto.
Qed.

(** The call after which the assertion [J] takes over from [I]. *)
Lemma phase_switch (J : State -> Prop) (c : Call) (eff : State -> State)
    (ans : State -> A) (k : A -> M B) :
  (forall s, I s -> I (record_call c s)) ->
  (forall s, I s -> J (eff (record_call c s))) ->
  (forall s, J s -> hoare J (k (ans s)) Q E) ->
  hoare I (bind (call h c eff ans) k) Q E.
Proof.
  intros Hr Hj Hk. apply hoare_bind_call with (R := J).
  - intros s e Hs _. apply I_E, Hr, Hs.
  - exact Hj.
  - intros s1 H1. apply (hoare_from (P := J)); auto.
Qed.

Lemma phase_bind (m : M A) (k : A -> M B) :
  hoare I m (fun _ => I) E ->
  (forall v, hoare I (k v) Q E) ->
  hoare I (bind m k) Q E.
Proof. intros Hm Hk. eapply hoare_bind; [exact Hm | exact Hk]. Qed.

Lemma phase_bind_read (f : State -> A) (k : A -> M B) :
  (forall s, I s -> hoare I (k (f s)) Q E) ->
  hoare I (bind (read f) k) Q E.
Proof.
  intros Hk. apply hoare_bind_read. intros s1 H1.
  apply (hoare_from (P := I)); auto.
Qed.

Lemma phase_bind_lift (r : Exn + A) (k : A -> M B) :
  (forall v, hoare I (k v) Q E) ->
  hoare I (bind (lift r) k) Q E.
Proof.
  intros Hk. apply phase_bind; [|exact Hk].
  apply hoare_lift; intros; [assumption | apply I_E; assumption].
Qed.

End Phase.

(** One step through a statement under the assertion of the current
    phase.  [weaken] proves that the assertion gives the exceptional
    postcondition, [kept] that a call keeps it, [finish] that it gives
    the postcondition where the statement ends. *)
Ltac phase_step weaken kept known finish :=
  lazymatch goal with
  | |- hoare _ (bind (call _ _ _ _) _) _ _ =>
      apply phase_bind_call;
      [weaken | kept
      | intros ? ?;
        lazymatch goal with H : _ |- _ => cbv beta in H; known H end]
  | |- hoare _ (bind (read _) _) _ _ =>
      apply phase_bind_read; intros ? ?;
      lazymatch goal with H : _ |- _ => cbv beta in H; known H end
  | |- hoare _ (bind (lift _) _) _ _ =>
      apply phase_bind_lift; [weaken | intros ?]
  | |- hoare _ (bind _ _) _ _ =>
      apply phase_bind; [| intros ?]
  | |- hoare _ (call _ _ _ _) _ _ =>
      apply phase_call; [weaken | kept | finish]
  | |- hoare _ (ret _) _ _ => apply hoare_ret; finish
  | |- hoare _ (raise _) _ _ => apply hoare_raise; weaken
  | |- hoare _ (if ?b then _ else _) _ _ => destruct b
  | |- hoare _ (match ?x with Some _ => _ | None => _ end) _ _ =>
      destruct x
  end.

Ltac kept_parts H :=
  repeat match goal with
         | |- _ /\ _ => split
         | |- made_only _ _ _ =>
             eapply made_only_step;
             [apply H | reflexivity
             | solve [hnf; repeat split; reflexivity]]
         | |- made_some _ _ _ =>
             eapply made_some_step; [apply H | reflexivity]
         | |- _ => state_simpl; apply H
         end.

(** An assertion made of equations on fields a call does not write, of
    [made_only] and of [made_some] still holds when the call is
    recorded, and is kept by the call. *)
Ltac recorded_phase :=
  intros ? ?;
  lazymatch goal with H : _ |- _ => cbv beta in H; kept_parts H end.

Ltac kept_phase :=
  intros ? ?;
  lazymatch goal with H : _ |- _ => cbv beta in H; split; kept_parts H end.

Lemma run_summary_kept (layer : RasterLayer) (s0 : State) (c : Call)
    (eff : State -> State) :
  (forall s, accepted (eff s) = accepted s
             /\ project_layers (eff s) = project_layers s
             /\ calls (eff s) = calls s) ->
  kept_by (run_summary layer s0) c eff.
Proof.
  intros Heff s Hs.
  assert (run_summary layer s0 (record_call c s)) as Hr.
  { destruct Hs as [[Ha Hl]|(Ha & Hl & Hm)]; [left | right]; cbn; auto.
    repeat split; auto. eapply made_some_step; [exact Hm | reflexivity]. }
  split; [exact Hr|].
  destruct (Heff (record_call c s)) as (Ea & El & Ec).
  destruct Hr as [[Ha Hl]|(Ha & Hl & (new & Hc & Hp))]; [left | right];
    rewrite ?Ea, ?El; auto.
  repeat split; auto. exists new. rewrite Ec. auto.
Qed.

Lemma made_some_only (p : Call -> bool) (s0 s : State) :
  made_some p s0 s -> made_only (fun _ => True) s0 s.
Proof.
  intros (new & Hc & _). exists new. split; [exact Hc|].
  apply Forall_forall. intros; exact I.
Qed.

Ltac open_phase :=
  unfold before_adding, after_adding, after_notice, selected_since in *.

Ltac known_phase name Hd H :=
  unfold before_adding, selected_since in H; selected name Hd H; clear H.

Section Summary.
Variable h : Host.
Variables (name : string) (d : LayerInfo).
Hypothesis Hd : get layers name = Some d.
Variable s0 : State.

Local Abbreviation layer := (QgsRasterLayer h (connection_string d) name "wms").

Lemma before_adding_summary (s : State) :
  before_adding name s0 s -> run_summary layer s0 s.
Proof. intros (Ha & Hl & _). left. auto. Qed.

Lemma after_adding_summary (s : State) :
  after_adding layer s0 s -> run_summary layer s0 s.
Proof. intros (Ha & Hl & _). left. auto. Qed.

Lemma after_notice_summary (s : State) :
  after_notice layer s0 s -> run_summary layer s0 s.
Proof. intros (Ha & Hl & _). left. auto. Qed.

Ltac into_summary :=
  intros;
  first [ assumption
        | apply before_adding_summary; assumption
        | apply after_adding_summary; assumption
        | apply after_notice_summary; assumption ].

Ltac summary_step :=
  lazymatch goal with
  | |- hoare _ (bind (call _ (MsgInformation "Sukces" _) _ _) _) _ _ => fail
  | |- _ =>
      phase_step into_summary ltac:(solve [open_phase; kept_phase])
                 ltac:(fun H => known_phase name Hd H) into_summary
  end.

Lemma load_layer_summary :
  hoare (before_adding name s0) (load_layer h name d)
        (fun _ => run_summary layer s0) (fun _ => run_summary layer s0).
Proof.
  unfold load_layer, layer_loaded, layer_failed, set_view_on_olsztyn,
    project_crs_is_empty.
  repeat summary_step.
  apply phase_switch with (J := after_adding layer s0);
    [into_summary | solve [open_phase; recorded_phase] | | intros ? _].
  { intros ? (Ha & Hl & Hm & _). repeat split.
    - exact Ha.
    - cbn. now rewrite Hl.
    - eapply made_only_step; [exact Hm | reflexivity | exact I]. }
  repeat summary_step.
  apply phase_switch with (J := after_notice layer s0);
    [into_summary | solve [open_phase; recorded_phase] | | intros ? _].
  { intros ? (Ha & Hl & Hm). repeat split.
    - exact Ha.
    - exact Hl.
    - eapply made_some_now; [exact Hm | reflexivity | reflexivity]. }
  apply hoare_call.
  - intros s' e Hs _. apply after_notice_summary.
    revert s' Hs. solve [open_phase; recorded_phase].
  - intros ? (Ha & Hl & Hm) _. right. repeat split.
    + exact Hl.
    + eapply made_some_step; [exact Hm | reflexivity].
Qed.

Lemma try_load_layer_summary :
  hoare (before_adding name s0) (try_load_layer h name d)
        (fun _ => run_summary layer s0) (fun _ => run_summary layer s0).
Proof.
  unfold try_load_layer, unexpected_error.
  apply hoare_try_finally
    with (Q1 := fun _ => run_summary layer s0)
         (E1 := fun _ => run_summary layer s0).
  - apply hoare_try_except with (E1 := fun _ => run_summary layer s0).
    + exact load_layer_summary.
    + intros e. apply keep_call, run_summary_kept. intros s; auto.
  - intros _. apply keep_call, run_summary_kept. intros s; auto.
  - intros _. apply keep_call, run_summary_kept. intros s; auto.
Qed.

Lemma download_layer_found_summary :
  hoare (before_adding name s0) (download_layer h)
        (fun _ => run_summary layer s0) (fun _ => run_summary layer s0).
Proof.
  unfold download_layer.
  do 3 summary_step.
  exact try_load_layer_summary.
Qed.

(** *** The message that ends a run *)

Ltac report_step :=
  lazymatch goal with
  | |- hoare _ (bind (call _ (MsgInformation "Sukces" _) _ _) _) _ _ => fail
  | |- hoare _ (call _ (MsgWarning _ _) _ _) _ _ => fail
  | |- _ =>
      phase_step ltac:(intros; open_phase; tauto)
                 ltac:(solve [open_phase; kept_phase])
                 ltac:(fun H => known_phase name Hd H)
                 ltac:(intros; assumption)
  end.

Lemma load_layer_reports :
  hoare (selected_since name s0) (load_layer h name d)
        (fun _ => made_some is_result_message s0)
        (fun _ => made_only (fun _ => True) s0).
Proof.
  unfold load_layer. rewrite (catalog_type _ _ Hd).
  cbn [String.eqb Ascii.eqb Bool.eqb]; cbv iota.
  unfold layer_loaded, layer_failed, set_view_on_olsztyn,
    project_crs_is_empty.
  repeat report_step.
  - apply phase_switch with (J := made_some is_result_message s0);
      [ intros ? ? [Hm _]; exact Hm
      | solve [open_phase; recorded_phase] | | intros ? _].
    { intros ? [Hm _].
      eapply made_some_now; [exact Hm | reflexivity | reflexivity]. }
    apply hoare_call.
    + intros s' e Hs _. eapply made_only_step;
        [exact (made_some_only _ _ _ Hs) | reflexivity | exact I].
    + intros ? Hs _. eapply made_some_step; [exact Hs | reflexivity].
  - apply hoare_call.
    + intros s' e [Hm _] _.
      eapply made_only_step; [exact Hm | reflexivity | exact I].
    + intros ? [Hm _] _.
      eapply made_some_now; [exact Hm | reflexivity | reflexivity].
Qed.

Lemma try_load_layer_reports :
  hoare (selected_since name s0) (try_load_layer h name d)
        (fun _ => made_some is_result_message s0)
        (fun _ => made_some is_result_message s0).
Proof.
  unfold try_load_layer, unexpected_error.
  assert (forall c eff (ans : State -> unit),
             (forall s, calls (eff s) = calls s) ->
             hoare (made_some is_result_message s0) (call h c eff ans)
                   (fun _ => made_some is_result_message s0)
                   (fun _ => made_some is_result_message s0)) as keeps.
  { intros c eff ans Heff. apply hoare_call.
    - intros s e Hs _. eapply made_some_step; [exact Hs | reflexivity].
    - intros s Hs _. eapply made_some_step; [exact Hs|].
      rewrite Heff. reflexivity. }
  apply hoare_try_finally
    with (Q1 := fun _ => made_some is_result_message s0)
         (E1 := fun _ => made_some is_result_message s0).
  - apply hoare_try_except with (E1 := fun _ => made_only (fun _ => True) s0).
    + exact load_layer_reports.
    + intros e. apply hoare_call.
      * intros s e' Hs _.
        eapply made_some_now; [exact Hs | reflexivity | reflexivity].
      * intros s Hs _.
        eapply made_some_now; [exact Hs | reflexivity | reflexivity].
  - intros _. apply keeps. reflexivity.
  - intros _. apply keeps. reflexivity.
Qed.

Lemma download_layer_found_reports :
  hoare (selected_since name s0) (download_layer h)
        (fun _ => made_some is_result_message s0) (fun _ _ => True).
Proof.
  unfold download_layer.
  do 3 (phase_step ltac:(intros; exact I)
                   ltac:(solve [open_phase; kept_phase])
                   ltac:(fun H => known_phase name Hd H)
                   ltac:(intros; assumption)).
  intros s' Hs. pose proof (try_load_layer_reports s' Hs) as H.
  destruct (try_load_layer h name d s') as [[u|e] s'']; [exact H | exact I].
Qed.

End Summary.

Lemma before_adding_start (s : State) :
  before_adding (layer_combo_text s) s s.
Proof.
  repeat split. exists []. split; [now rewrite app_nil_r | constructor].
Qed.

Section NotFound.
Variable h : Host.
Variable s0 : State.
Hypothesis Hn : get layers (layer_combo_text s0) = None.

Lemma download_layer_not_found :
  hoare (before_adding (layer_combo_text s0) s0) (download_layer h)
        (fun _ => before_adding (layer_combo_text s0) s0)
        (fun _ => before_adding (layer_combo_text s0) s0).
Proof.
  unfold download_layer.
  apply keep_bind_call; [solve [open_phase; kept_phase]|].
  intros s (_ & _ & _ & Ht). rewrite Ht, Hn.
  apply keep_call. solve [open_phase; kept_phase].
Qed.
End NotFound.

Lemma download_layer_summary (h : Host) (s : State) :
  match get layers (layer_combo_text s) with
  | Some d =>
      run_summary
        (QgsRasterLayer h (connection_string d) (layer_combo_text s) "wms")
        s (snd (download_layer h s))
  | None =>
      accepted (snd (download_layer h s)) = accepted s
      /\ project_layers (snd (download_layer h s)) = project_layers s
  end.
Proof.
  destruct (get layers (layer_combo_text s)) as [d|] eqn:Hd.
  - pose proof (download_layer_found_summary h _ d Hd s s
                  (before_adding_start s)) as H.
    destruct (download_layer h s) as [[u|e] s']; exact H.
  - pose proof (download_layer_not_found h s Hd s (before_adding_start s))
      as H.
    destruct (download_layer h s) as [[u|e] s'];
      destruct H as (Ha & Hl & _); auto.
Qed.

(** X4.  Whatever the host does, and whether [download_layer] returns
    or raises, the layers of the project afterwards are the ones that
    were there, or these followed by the one layer built from the
    connection string of the selected entry: a run removes no layer,
    reorders none, and adds at most one. *)
Theorem project_layers_only_grow (h : Host) (s : State) :
  project_layers (snd (download_layer h s)) = project_layers s
  \/ exists d,
       get layers (layer_combo_text s) = Some d
       /\ project_layers (snd (download_layer h s))
          = project_layers s
            ++ [QgsRasterLayer h (connection_string d)
                               (layer_combo_text s) "wms"].
Proof.
  pose proof (download_layer_summary h s) as H.
  destruct (get layers (layer_combo_text s)) as [d|].
  - destruct H as [[_ [Hl|Hl]]|(_ & Hl & _)]; [left; exact Hl | right ..];
      exists d; auto.
  - left. apply H.
Qed.

(** X5.  Whatever the host does: a dialog that was not accepted is
    accepted after [download_layer] only if the selected entry was
    found, its layer is the last layer of the project, and the success
    notice of line 216 was requested.  A dialog is never closed on a
    run that did not register the layer. *)
Theorem accepted_only_after_success (h : Host) (s : State) :
  accepted s = false -> accepted (snd (download_layer h s)) = true ->
  exists d,
    get layers (layer_combo_text s) = Some d
    /\ project_layers (snd (download_layer h s))
       = project_layers s
         ++ [QgsRasterLayer h (connection_string d)
                            (layer_combo_text s) "wms"]
    /\ existsb is_success_notice (calls_made (download_layer h) s) = true.
Proof.
  intros Hs Hf. pose proof (download_layer_summary h s) as H.
  destruct (get layers (layer_combo_text s)) as [d|].
  - exists d. split; [reflexivity|].
    destruct H as [[Ha _]|(_ & Hl & Hm)]; [congruence|].
    split; [exact Hl | apply made_some_calls_made, Hm].
  - destruct H as [Ha _]. congruence.
Qed.

Lemma accepted_only_after_success_witness :
  exists d,
    get layers (layer_combo_text new_dialog) = Some d
    /\ project_layers (snd (download_layer stub_host new_dialog))
       = project_layers new_dialog
         ++ [QgsRasterLayer stub_host (connection_string d)
                            (layer_combo_text new_dialog) "wms"]
    /\ existsb is_success_notice
         (calls_made (download_layer stub_host) new_dialog) = true.
Proof.
  apply (accepted_only_after_success stub_host new_dialog).
  - reflexivity.
  - vm_compute. reflexivity.
Defined.

(** X6.  Whatever the host does: when [download_layer] returns, it has
    asked for a message box that tells how the run ended: the success
    notice, one of the two warnings, or the notice of the handler.  No
    run comes back in silence; in particular the test of line 157 holds
    for every entry of the catalog, so that the body of the [try] is
    never skipped. *)
Theorem download_layer_always_reports (h : Host) (s : State) :
  fst (download_layer h s) = Returns tt ->
  existsb is_result_message (calls_made (download_layer h) s) = true.
Proof.
  intros Hr. apply made_some_calls_made.
  assert (selected_since (layer_combo_text s) s s) as Hs.
  { split; [|reflexivity].
    exists []. split; [now rewrite app_nil_r | constructor]. }
  destruct (get layers (layer_combo_text s)) as [d|] eqn:Hd.
  - pose proof (download_layer_found_reports h _ d Hd s s Hs) as H.
    destruct (download_layer h s) as [[u|e] s']; [exact H | discriminate].
  - revert Hr. unfold download_layer, bind, call.
    destruct (raises h (calls s) ComboCurrentText); [discriminate|].
    cbn [same layer_combo_text record_call]. 
    replace (layer_combo_text (record_call ComboCurrentText s))
      with (layer_combo_text s) by reflexivity.
    rewrite Hd.
    destruct (raises h _ _); [discriminate|]. intros _.
    exists [ComboCurrentText; MsgWarning "Błąd" "Nie wybrano warstwy."].
    split; [|reflexivity]. cbn. rewrite <- app_assoc. reflexivity.
Qed.

Lemma download_layer_always_reports_witness :
  existsb is_result_message
    (calls_made (download_layer failing_host) new_dialog) = true.
Proof.
  apply (download_layer_always_reports failing_host new_dialog).
  vm_compute. reflexivity.
Defined.

(** * A run that fails after the layer was registered *)

Lemma call_raises {A : Type} (h : Host) (c : Call) (eff : State -> State)
    (ans : State -> A) (s : State) (e : Exn) :
  raises h (calls s) c = Some e ->
  call h c eff ans s = (Raises e, record_call c s).
Proof. intros H. unfold call. rewrite H. reflexivity. Qed.

Section CanvasLost.
Variables (h : Host) (e : Exn).
Hypothesis Hlost : canvas_lost h e.

Ltac exec :=
  unfold bind, ret, read;
  repeat first [ rewrite call_returns by (apply Hlost; discriminate)
               | rewrite call_raises with (e := e) by apply Hlost
               | progress cbv beta iota
               | progress state_simpl ].

Lemma project_crs_is_empty_lost (s : State) :
  project_crs_is_empty h s
  = (Returns (crs_is_empty (project_crs s)),
     record_calls (crs_test_calls (project_crs s)) s).
Proof.
  unfold project_crs_is_empty, crs_is_empty, crs_test_calls. exec.
  destruct (crs_isValid (project_crs s)); exec; reflexivity.
Qed.

Lemma layer_loaded_lost (s : State) (name : string) (d : LayerInfo)
    (layer : RasterLayer) :
  iface s <> None ->
  exists s', layer_loaded h name d layer s = (Raises e, s')
    /\ iface s' = iface s
    /\ layer_combo_items s' = layer_combo_items s
    /\ layer_combo_text s' = layer_combo_text s
    /\ progress_bar_visible s' = progress_bar_visible s
    /\ progress_bar_range s' = progress_bar_range s
    /\ accepted s' = accepted s
    /\ project_crs s' =
       (if crs_is_empty (project_crs s)
        then QgsCoordinateReferenceSystem h "EPSG:3857" else project_crs s)
    /\ project_layers s' = project_layers s ++ [layer]
    /\ calls s' = calls s
                  ++ [ProjectInstance]
                  ++ crs_test_calls (project_crs s)
                  ++ crs_set_calls h (project_crs s)
                  ++ [ProjectInstance; ProjectAddMapLayer layer;
                      IfaceMapCanvas].
Proof.
  intros Hi. unfold layer_loaded, crs_set_calls, set_view_on_olsztyn. exec.
  rewrite project_crs_is_empty_lost. exec.
  destruct (iface s) eqn:Hi'; [clear Hi | contradiction].
  destruct (crs_is_empty (project_crs s)); exec; state_fields;
    rewrite ?Hi'; exec;
    (eexists; split; [reflexivity|]); state_fields; tidy_calls;
    rewrite ?Hi'; repeat split; reflexivity.
Qed.

Lemma download_layer_lost (s : State) (name : string) (d : LayerInfo) :
  layer_isValid (QgsRasterLayer h (connection_string d) name "wms") = true ->
  iface s <> None -> layer_combo_text s = name -> get layers name = Some d ->
  exists s', download_layer h s = (Returns tt, s')
    /\ accepted s' = accepted s
    /\ progress_bar_visible s' = false
    /\ project_layers s'
       = project_layers s ++ [QgsRasterLayer h (connection_string d) name "wms"]
    /\ calls s' = calls s ++ canvas_lost_calls h s name d e.
Proof.
  intros Hv Hi Ht Hd. unfold download_layer. exec. rewrite Ht, Hd. exec.
  unfold try_load_layer, try_finally, try_except, load_layer,
    unexpected_error.
  rewrite (catalog_type _ _ Hd). cbn [String.eqb Ascii.eqb Bool.eqb]. exec.
  rewrite Hv.
  match goal with
  | |- context [layer_loaded h name d ?l ?s1] =>
      destruct (layer_loaded_lost s1 name d l)
        as (s' & -> & Hi' & Hci & Hct & Hpv & Hr & Ha & Hc & Hl & Hcs);
        [state_simpl; exact Hi|]
  end.
  exec. eexists. split; [reflexivity|].
  revert Hi' Hci Hct Hpv Hr Ha Hc Hl Hcs. state_simpl. intros.
  repeat split; try assumption.
  rewrite Hcs. unfold canvas_lost_calls. tidy_calls. reflexivity.
Qed.

End CanvasLost.

(** X7.  No step of a run is undone.  When the layer loads and
    [iface.mapCanvas()] raises (the dialog has an [iface], every other
    call goes through), [download_layer] returns normally and hides the
    progress bar, but the layer registered in line 185 stays in the
    project, the success notice is not shown, the dialog is not
    accepted, and the calls end with the critical message box that
    carries the text of the exception. *)
Theorem lost_canvas_keeps_the_layer (h : Host) (e : Exn) (s : State)
    (name : string) (d : LayerInfo) :
  canvas_lost h e ->
  layer_isValid (QgsRasterLayer h (connection_string d) name "wms") = true ->
  iface s <> None -> layer_combo_text s = name -> get layers name = Some d ->
  fst (download_layer h s) = Returns tt
  /\ calls_made (download_layer h) s = canvas_lost_calls h s name d e
  /\ project_layers (snd (download_layer h s))
     = project_layers s ++ [QgsRasterLayer h (connection_string d) name "wms"]
  /\ accepted (snd (download_layer h s)) = accepted s
  /\ progress_bar_visible (snd (download_layer h s)) = false.
Proof.
  intros Hlost Hv Hi Ht Hd.
  destruct (download_layer_lost h e Hlost s name d Hv Hi Ht Hd)
    as (s' & Hrun & Ha & Hp & Hl & Hc).
  split; [now rewrite Hrun|].
  split; [apply calls_made_eq; now rewrite Hrun|].
  rewrite Hrun. cbn [snd]. auto.
Qed.

Lemma lost_canvas_keeps_the_layer_witness :
  fst (download_layer lost_canvas_host new_dialog) = Returns tt
  /\ calls_made (download_layer lost_canvas_host) new_dialog
     = canvas_lost_calls lost_canvas_host new_dialog "Standardowa mapa OSM"
         osm_info canvas_deleted
  /\ project_layers (snd (download_layer lost_canvas_host new_dialog))
     = project_layers new_dialog
       ++ [QgsRasterLayer lost_canvas_host (connection_string osm_info)
             "Standardowa mapa OSM" "wms"]
  /\ accepted (snd (download_layer lost_canvas_host new_dialog))
     = accepted new_dialog
  /\ progress_bar_visible (snd (download_layer lost_canvas_host new_dialog))
     = false.
Proof.
  apply (lost_canvas_keeps_the_layer lost_canvas_host).
  - split; [reflexivity|]. intros history c Hc.
    destruct c; try reflexivity. contradiction.
  - reflexivity.
  - discriminate.
  - reflexivity.
  - reflexivity.
Defined.

(** * The plugin object *)

Section Shell.
Import OlsztynGeoportal.
Local Open Scope plugin_scope.

Lemma plugin_calls_made_eq {A : Type} (m : G A) (p : Plugin)
    (new : list Call) :
  calls (snd (m p)) = calls p ++ new -> plugin_calls_made m p = new.
Proof.
  intros H. unfold plugin_calls_made. rewrite H. apply skipn_length_app.
Qed.

(** One call into the host, on either way out. *)
Ltac host_call :=
  match goal with
  | |- context [raises ?h ?cs ?c] => destruct (raises h cs c) eqn:?; cbn
  end.

Lemma add_action_summary (h : Host) (icon_path text0 : string)
    (callback : Callable) (enabled_flag add_to_menu add_to_toolbar : bool)
    (status_tip whats_this : option string) (parent0 : option QWidget)
    (p : Plugin) :
  only_actions p
    (snd (add_action h icon_path text0 callback enabled_flag add_to_menu
            add_to_toolbar status_tip whats_this parent0 p))
  /\ (exists new,
        calls (snd (add_action h icon_path text0 callback enabled_flag
                      add_to_menu add_to_toolbar status_tip whats_this
                      parent0 p))
        = calls p ++ new)
  /\ match add_action h icon_path text0 callback enabled_flag add_to_menu
             add_to_toolbar status_tip whats_this parent0 p with
     | (Returns a, p') =>
         actions p' = actions p ++ [a]
         /\ (length (calls p) < serial a <= length (calls p'))%nat
         /\ icon a = {| fileName := icon_path |}
         /\ text a = text0 /\ parent a = parent0
         /\ (add_to_toolbar = true -> toolbar p <> None)
     | (Raises _, p') => actions p' = actions p
     end.
Proof.
  unfold add_action, only_actions, self_toolbar, self_iface, bind, call,
    read, assign, ret, raise.
  destruct status_tip, whats_this, add_to_toolbar, add_to_menu,
    (toolbar p) eqn:Ht, (iface p) eqn:Hi; cbn;
    repeat first [host_call | rewrite Ht; cbn | rewrite Hi; cbn].
  all: repeat split; try reflexivity; try assumption.
  all: try (eexists; rewrite <- ?app_assoc; reflexivity).
  all: rewrite ?length_app; cbn; try lia.
  all: congruence.
Qed.

Lemma grown_refl (p : Plugin) : grown p p.
Proof.
  repeat split; auto. exists []. now rewrite app_nil_r.
Qed.

Lemma grown_record (c : Call) (p : Plugin) : grown p (record_call c p).
Proof. repeat split; auto. exists [c]. reflexivity. Qed.

Lemma grown_trans (p1 p2 p3 : Plugin) :
  actions p2 = actions p1 -> grown p1 p2 -> grown p2 p3 -> grown p1 p3.
Proof.
  intros Ha (Hi & Hm & (n1 & Hc) & _) (Hi' & Hm' & (n2 & Hc') & H).
  repeat split; try congruence.
  - exists (n1 ++ n2). rewrite Hc', Hc, app_assoc. reflexivity.
  - destruct H as [H|(a & H & Hlo & Hhi)]; [left; congruence|].
    right. exists a. split; [congruence|].
    rewrite Hc, length_app in Hlo. lia.
Qed.

Lemma shell_invariant_grown (p p' : Plugin) :
  grown p p' -> shell_invariant p -> shell_invariant p'.
Proof.
  intros (Hi & Hm & (new & Hc) & Ha) (Ii & Im & Id & Is).
  assert (length (calls p) <= length (calls p'))%nat as Hlen
    by (rewrite Hc, length_app; lia).
  assert (Forall (fun a => (serial a <= length (calls p'))%nat) (actions p))
    as Is' by (eapply Forall_impl; [|exact Is]; cbn; intros; lia).
  repeat split; try congruence.
  - destruct Ha as [->|(a & -> & Hlo & Hhi)]; [exact Id|].
    apply NoDup_app; [exact Id | repeat constructor; intros [] |].
    intros x Hx [<-|[]]. rewrite Forall_forall in Is.
    specialize (Is _ Hx). lia.
  - destruct Ha as [->|(a & -> & Hlo & Hhi)]; [exact Is'|].
    apply Forall_app. split; [exact Is' | repeat constructor; lia].
Qed.

Lemma add_action_grown (h : Host) (icon_path text0 : string)
    (callback : Callable) (enabled_flag add_to_menu add_to_toolbar : bool)
    (status_tip whats_this : option string) (parent0 : option QWidget)
    (p : Plugin) :
  grown p (snd (add_action h icon_path text0 callback enabled_flag
                  add_to_menu add_to_toolbar status_tip whats_this parent0 p)).
Proof.
  destruct (add_action_summary h icon_path text0 callback enabled_flag
              add_to_menu add_to_toolbar status_tip whats_this parent0 p)
    as ((Hi & _ & Hm & _) & Hc & Ha).
  destruct (add_action _ _ _ _ _ _ _ _ _ _ p) as [[a|e] p'];
    cbn [snd] in *; repeat split; auto.
  right. exists a. split; apply Ha.
Qed.

Lemma initGui_grown (h : Host) (p : Plugin) :
  grown p (snd (initGui h p)).
Proof.
  unfold initGui, self_iface. unfold bind at 1 2. unfold read at 1.
  destruct (iface p) eqn:Hi; [|apply grown_refl].
  cbn [ret]. unfold bind at 1. unfold call.
  destruct (raises h (calls p) MainWindow); [apply grown_record|].
  pose proof (add_action_grown h ":/plugins/olsztyn_geoportal/icon.png"
                "Pobierz dane z Geoportalu Olsztyna" bound_run true true
                true None None (Some main_window)
                (record_call MainWindow p)) as H.
  unfold bind.
  destruct (add_action _ _ _ _ _ _ _ _ _ _ _) as [[a|e] p']; cbn [snd] in *;
    (eapply grown_trans; [| apply grown_record | exact H]); reflexivity.
Qed.

Lemma removal_calls_are_removals (l : list QAction) :
  Forall (fun c => is_removal c = true) (flat_map removal_calls l).
Proof. induction l; cbn; repeat constructor; assumption. Qed.

(** The loop of [unload] changes no attribute; when it comes to its
    end, it has asked for the two removals of every action in turn. *)
Lemma unload_actions_summary (h : Host) (l : list QAction) (p : Plugin) :
  iface (snd (unload_actions h l p)) = iface p
  /\ plugin_dir (snd (unload_actions h l p)) = plugin_dir p
  /\ actions (snd (unload_actions h l p)) = actions p
  /\ menu (snd (unload_actions h l p)) = menu p
  /\ toolbar (snd (unload_actions h l p)) = toolbar p
  /\ match fst (unload_actions h l p) with
     | Returns _ =>
         calls (snd (unload_actions h l p))
         = calls p ++ flat_map removal_calls l
     | Raises _ =>
         exists new, calls (snd (unload_actions h l p)) = calls p ++ new
                     /\ Forall (fun c => is_removal c = true) new
     end.
Proof.
  revert p. induction l as [|a l IH]; intros p.
  - cbn. rewrite app_nil_r. repeat split; reflexivity.
  - cbn [unload_actions]. unfold self_iface, bind, read, call, ret, raise.
    destruct (iface p) eqn:Hi; cbn.
    2:{ repeat split; auto. exists []. now rewrite app_nil_r. }
    destruct (raises h (calls p) _); cbn.
    { repeat split; auto. exists [RemovePluginWebMenu "Geoportal Olsztyn" a].
      split; [reflexivity | repeat constructor]. }
    rewrite Hi; cbn.
    destruct (raises h (calls p ++ _) _); cbn.
    { repeat split; auto. eexists.
      split; [rewrite <- app_assoc; reflexivity | repeat constructor]. }
    specialize (IH (record_call (RemoveToolBarIcon a)
                      (record_call
                         (RemovePluginWebMenu "Geoportal Olsztyn" a) p))).
    destruct (unload_actions h l _) as [[u|e] p']; cbn [fst snd] in *;
      destruct IH as (-> & -> & -> & -> & -> & IH); cbn;
      repeat split; auto.
    + rewrite IH. cbn. rewrite <- !app_assoc. reflexivity.
    + destruct IH as (new & -> & Hnew). cbn. eexists.
      split; [rewrite <- !app_assoc; reflexivity|].
      repeat constructor. exact Hnew.
Qed.

Lemma unload_summary (h : Host) (p : Plugin) :
  iface (snd (unload h p)) = iface p
  /\ plugin_dir (snd (unload h p)) = plugin_dir p
  /\ actions (snd (unload h p)) = actions p
  /\ menu (snd (unload h p)) = menu p
  /\ match fst (unload h p) with
     | Returns _ =>
         calls (snd (unload h p))
         = calls p ++ flat_map removal_calls (actions p)
         /\ toolbar p <> None /\ toolbar (snd (unload h p)) = None
     | Raises _ =>
         (exists new, calls (snd (unload h p)) = calls p ++ new
                      /\ Forall (fun c => is_removal c = true) new)
         /\ toolbar (snd (unload h p)) = toolbar p
     end.
Proof.
  pose proof (unload_actions_summary h (actions p) p) as H.
  unfold unload, bind, read, assign, raise. cbn.
  destruct (unload_actions h (actions p) p) as [[u|e] p'];
    cbn [fst snd] in *; destruct H as (Hi & Hd & Ha & Hm & Ht & Hc).
  - destruct (toolbar p') eqn:Hp'; cbn; repeat split; auto; try congruence.
    exists (flat_map removal_calls (actions p)). split; [exact Hc|].
    apply removal_calls_are_removals.
  - cbn. repeat split; auto.
Qed.

Lemma unload_grown (h : Host) (p : Plugin) : grown p (snd (unload h p)).
Proof.
  destruct (unload_summary h p) as (Hi & _ & Ha & Hm & Hc).
  repeat split; auto.
  destruct (fst (unload h p)).
  - destruct Hc as (Hc & _). eexists; exact Hc.
  - destruct Hc as ((new & Hc & _) & _). eexists; exact Hc.
Qed.

Lemma run_grown (h : Host) (p : Plugin) : grown p (snd (run h p)).
Proof.
  unfold run, bind, read, call.
  destruct (raises h (calls p) _); apply grown_record.
Qed.

Lemma classFactory_returns (h : Host) (iface0 : option QgisInterface)
    (p : Plugin) :
  classFactory h iface0 = (Returns tt, p) ->
  iface0 = Some qgis_iface
  /\ p = {| iface := iface0; plugin_dir := dirname__file__ h;
            actions := []; menu := "Geoportal Olsztyn";
            toolbar := Some {| windowTitle := "Geoportal Olsztyn" |};
            calls := [AddToolBar "Geoportal Olsztyn";
                      SetObjectName {| windowTitle := "Geoportal Olsztyn" |}
                                    "GeoportalOlsztyn"] |}.
Proof.
  unfold classFactory, __init__, self_iface, self_toolbar, bind, assign,
    read, call, ret, raise. cbn.
  destruct iface0 as [[]|]; cbn; [|discriminate].
  destruct (raises h [] _); cbn; [discriminate|].
  destruct (raises h _ _); cbn; [discriminate|].
  intros [= <-]. split; reflexivity.
Qed.

Lemma alive_invariant (h : Host) (p : Plugin) :
  alive h p -> shell_invariant p.
Proof.
  induction 1 as [iface0 p Hp|p m _ IH].
  - destruct (classFactory_returns h iface0 p Hp) as (-> & ->).
    repeat split; cbn; try constructor. discriminate.
  - eapply shell_invariant_grown; [|exact IH].
    destruct m; cbn [invoke];
      [apply add_action_grown | apply initGui_grown | apply unload_grown
      | apply run_grown].
Qed.


(** *** What was put into the web menu *)

Lemma grown_incl (p p' : Plugin) :
  grown p p' -> incl (actions p) (actions p').
Proof.
  intros (_ & _ & _ & [->|(a & -> & _)]);
    [apply incl_refl | apply incl_appl, incl_refl].
Qed.

Lemma menu_registered_step (p p' : Plugin) (new : list Call) :
  menu p = "Geoportal Olsztyn" ->
  calls p' = calls p ++ new -> incl (actions p) (actions p') ->
  (forall m a, In (AddPluginToWebMenu m a) new ->
               m = menu p /\ In a (actions p')) ->
  menu_registered p -> menu_registered p'.
Proof.
  intros Hm Hc Hi Hnew Hp m a Hin. rewrite Hc in Hin.
  apply in_app_or in Hin. destruct Hin as [Hin|Hin].
  - destruct (Hp m a Hin) as (-> & Ha). split; [reflexivity | apply Hi, Ha].
  - destruct (Hnew m a Hin) as (-> & Ha). split; [exact Hm | exact Ha].
Qed.

Lemma removal_not_added (new : list Call) (m : string) (a : QAction) :
  Forall (fun c => is_removal c = true) new ->
  ~ In (AddPluginToWebMenu m a) new.
Proof.
  intros H Hin. rewrite Forall_forall in H. specialize (H _ Hin).
  discriminate.
Qed.

(** Against a host that raises nothing, [add_action] asks the web menu
    only for the action it then appends, under [self.menu]. *)
Lemma add_action_menu_calls (h : Host) (icon_path text0 : string)
    (callback : Callable) (enabled_flag add_to_menu add_to_toolbar : bool)
    (status_tip whats_this : option string) (parent0 : option QWidget)
    (p : Plugin) :
  plugin_quiet h -> iface p <> None ->
  exists new,
    calls (snd (add_action h icon_path text0 callback enabled_flag
                  add_to_menu add_to_toolbar status_tip whats_this
                  parent0 p))
    = calls p ++ new
    /\ forall m a, In (AddPluginToWebMenu m a) new ->
         m = menu p
         /\ In a (actions (snd (add_action h icon_path text0 callback
                                  enabled_flag add_to_menu add_to_toolbar
                                  status_tip whats_this parent0 p))).
Proof.
  intros Hq Hi.
  unfold add_action, self_toolbar, self_iface, bind, call, read, assign,
    ret, raise.
  destruct (iface p) eqn:Hi'; [clear Hi | congruence].
  destruct status_tip, whats_this, add_to_toolbar, add_to_menu,
    (toolbar p) eqn:Ht; cbn;
    repeat first [rewrite Hq; cbn | rewrite Ht; cbn | rewrite Hi'; cbn].
  all: eexists; split; [rewrite <- ?app_assoc; reflexivity|].
  all: intros m a Hin; cbn in Hin;
    repeat match goal with
           | H : _ \/ _ |- _ => destruct H as [H|H]
           | H : False |- _ => destruct H
           | H : _ = AddPluginToWebMenu _ _ |- _ =>
               first [discriminate H | injection H as <- <-]
           end.
  all: split; [reflexivity|].
  all: apply in_or_app; right; left; rewrite <- ?app_assoc; reflexivity.
Qed.

Lemma alive_menu_registered (h : Host) (p : Plugin) :
  plugin_quiet h -> alive h p -> menu_registered p.
Proof.
  intros Hq Hp. induction Hp as [iface0 p Hp|p m Hp IH].
  - destruct (classFactory_returns h iface0 p Hp) as (_ & ->).
    intros m a [H|[H|[]]]; discriminate.
  - destruct (alive_invariant h p Hp) as (Hi & Hm & _).
    destruct m; cbn [invoke].
    + destruct (add_action_menu_calls h icon_path text0 callback enabled_flag
                  add_to_menu add_to_toolbar status_tip whats_this parent0 p
                  Hq Hi) as (new & Hc & Hnew).
      eapply menu_registered_step; eauto.
      apply grown_incl, add_action_grown.
    + pose proof (initGui_grown h p) as Hg.
      revert Hg. unfold initGui, self_iface, bind, read, call, ret.
      destruct (iface p) eqn:Hi'; [|congruence]. rewrite Hq.
      destruct (add_action_menu_calls h
                  ":/plugins/olsztyn_geoportal/icon.png"
                  "Pobierz dane z Geoportalu Olsztyna" bound_run true true
                  true None None (Some main_window)
                  (record_call MainWindow p) Hq)
        as (new & Hc & Hnew); [cbn; congruence|].
      destruct (add_action _ _ _ _ _ _ _ _ _ _ _) as [[a|e] p'];
        cbn [snd] in *; intros Hg;
        (eapply menu_registered_step with (new := MainWindow :: new);
         [exact Hm | rewrite Hc; cbn; rewrite <- app_assoc; reflexivity
         | apply grown_incl, Hg
         | intros m0 a0 [H|H]; [discriminate | exact (Hnew m0 a0 H)]
         | exact IH]).
    + destruct (unload_summary h p) as (_ & _ & Ha & _ & Hc).
      destruct (fst (unload h p)) as [u|e].
      * destruct Hc as (Hc & _).
        eapply menu_registered_step;
          [exact Hm | exact Hc | rewrite Ha; apply incl_refl | | exact IH].
        intros m a Hin.
        destruct (removal_not_added _ m a
                    (removal_calls_are_removals (actions p)) Hin).
      * destruct Hc as ((new & Hc & Hr) & _).
        eapply menu_registered_step;
          [exact Hm | exact Hc | rewrite Ha; apply incl_refl | | exact IH].
        intros m a Hin. destruct (removal_not_added _ m a Hr Hin).
    + unfold run, bind, read, call. rewrite Hq. cbn [snd].
      eapply menu_registered_step with (new := [DialogExec _]);
        [exact Hm | reflexivity | apply incl_refl | | exact IH].
      intros m a [H|[]]. discriminate.
Qed.

Lemma unload_actions_quiet (h : Host) (l : list QAction) (p : Plugin) :
  plugin_quiet h -> iface p <> None ->
  fst (unload_actions h l p) = Returns tt.
Proof.
  intros Hq. revert p. induction l as [|a l IH]; intros p Hi;
    [reflexivity|].
  cbn [unload_actions]. unfold self_iface, bind, read, call, ret.
  destruct (iface p) eqn:Hi'; [|congruence]. rewrite Hq. cbn.
  rewrite Hi', Hq. apply IH. cbn. congruence.
Qed.

Lemma unload_calls (h : Host) (p : Plugin) :
  calls (snd (unload h p)) = calls (snd (unload_actions h (actions p) p)).
Proof.
  unfold unload, bind, read, assign, raise. cbn.
  destruct (unload_actions h (actions p) p) as [[u|e] p']; cbn;
    [destruct (toolbar p')|]; reflexivity.
Qed.

Lemma unload_quiet_calls (h : Host) (p : Plugin) :
  plugin_quiet h -> iface p <> None ->
  plugin_calls_made (unload h) p = flat_map removal_calls (actions p).
Proof.
  intros Hq Hi. apply plugin_calls_made_eq. rewrite unload_calls.
  pose proof (unload_actions_summary h (actions p) p) as H.
  rewrite (unload_actions_quiet h (actions p) p Hq Hi) in H. apply H.
Qed.

Lemma add_action_without_toolbar (h : Host) (icon_path text0 : string)
    (callback : Callable) (enabled_flag add_to_menu : bool)
    (status_tip whats_this : option string) (parent0 : option QWidget)
    (p : Plugin) :
  toolbar p = None ->
  exists e,
    fst (add_action h icon_path text0 callback enabled_flag add_to_menu true
           status_tip whats_this parent0 p) = Raises e.
Proof.
  intros Ht.
  pose proof (add_action_summary h icon_path text0 callback enabled_flag
                add_to_menu true status_tip whats_this parent0 p)
    as (_ & _ & H).
  destruct (add_action _ _ _ _ _ _ _ _ _ _ p) as [[a|e] p'].
  - destruct H as (_ & _ & _ & _ & _ & H). destruct (H eq_refl Ht).
  - exists e. reflexivity.
Qed.

Lemma quiet_qgis_quiet : plugin_quiet quiet_qgis.
Proof. intros cs c. reflexivity. Qed.

Lemma loaded_plugin_alive : alive quiet_qgis loaded_plugin.
Proof.
  apply alive_invoke, (alive_new _ (Some qgis_iface)). reflexivity.
Qed.

(** X11.  Every plugin object that exists, whatever was done with it
    and whatever the host answered, has an [iface] ([classFactory]
    raises without one), files its menu entries under
    "Geoportal Olsztyn", the name [unload] removes them from, and holds
    no action twice. *)
Theorem plugin_object_invariant (h : Host) (p : Plugin) :
  alive h p ->
  iface p = Some qgis_iface /\ menu p = "Geoportal Olsztyn"
  /\ NoDup (actions p).
Proof.
  intros Hp. destruct (alive_invariant h p Hp) as (Hi & Hm & Hd & _).
  repeat split; auto. destruct (iface p) as [[]|]; congruence.
Qed.

Lemma plugin_object_invariant_witness :
  iface loaded_plugin = Some qgis_iface
  /\ menu loaded_plugin = "Geoportal Olsztyn"
  /\ NoDup (actions loaded_plugin).
Proof.
  apply (plugin_object_invariant quiet_qgis). exact loaded_plugin_alive.
Defined.

(** X12.  Against a host that raises nothing, [unload] takes back what
    was put into the web menu: for every entry the object ever asked
    [addPluginToWebMenu] for, through [initGui] or [add_action],
    [unload] asks [removePluginWebMenu] with the same menu name and the
    same action, and [removeToolBarIcon] for that action. *)
Theorem unload_removes_menu_entries (h : Host) (p : Plugin) (m : string)
    (a : QAction) :
  plugin_quiet h -> alive h p ->
  In (AddPluginToWebMenu m a) (calls p) ->
  In (RemovePluginWebMenu m a) (plugin_calls_made (unload h) p)
  /\ In (RemoveToolBarIcon a) (plugin_calls_made (unload h) p).
Proof.
  intros Hq Hp Hin.
  destruct (alive_menu_registered h p Hq Hp m a Hin) as (-> & Ha).
  destruct (alive_invariant h p Hp) as (Hi & _).
  rewrite (unload_quiet_calls h p Hq Hi).
  split; apply in_flat_map; exists a; cbn; auto.
Qed.

Lemma unload_removes_menu_entries_witness :
  In (RemovePluginWebMenu "Geoportal Olsztyn" download_action)
     (plugin_calls_made (unload quiet_qgis) loaded_plugin)
  /\ In (RemoveToolBarIcon download_action)
        (plugin_calls_made (unload quiet_qgis) loaded_plugin).
Proof.
  apply (unload_removes_menu_entries quiet_qgis loaded_plugin).
  - exact quiet_qgis_quiet.
  - exact loaded_plugin_alive.
  - vm_compute. tauto.
Defined.

(** X13.  Whatever the host does: when [unload] returns, its calls
    were the two removals for every action of [self.actions], in the
    order of the list and nothing else; the attribute [toolbar] is
    gone, and [self.actions] still holds every action. *)
Theorem unload_asks_once_per_action (h : Host) (p : Plugin) :
  fst (unload h p) = Returns tt ->
  plugin_calls_made (unload h) p = flat_map removal_calls (actions p)
  /\ toolbar (snd (unload h p)) = None
  /\ actions (snd (unload h p)) = actions p.
Proof.
  intros Hr. destruct (unload_summary h p) as (_ & _ & Ha & _ & H).
  rewrite Hr in H. destruct H as (Hc & _ & Ht).
  repeat split; auto. apply plugin_calls_made_eq, Hc.
Qed.

Lemma unload_asks_once_per_action_witness :
  plugin_calls_made (unload quiet_qgis) loaded_plugin
  = flat_map removal_calls (actions loaded_plugin)
  /\ toolbar (snd (unload quiet_qgis loaded_plugin)) = None
  /\ actions (snd (unload quiet_qgis loaded_plugin)) = actions loaded_plugin.
Proof.
  apply (unload_asks_once_per_action quiet_qgis loaded_plugin). reflexivity.
Defined.

(** X14.  A plugin object is spent once [unload] has returned:
    whatever the host does, a second [unload] raises, and so does
    [initGui], since both need the attribute that line 316 deleted. *)
Theorem unloaded_plugin_is_spent (h : Host) (p : Plugin) :
  fst (unload h p) = Returns tt ->
  (exists e, fst (unload h (snd (unload h p))) = Raises e)
  /\ (exists e, fst (initGui h (snd (unload h p))) = Raises e).
Proof.
  intros Hr. destruct (unload_summary h p) as (_ & _ & _ & _ & H).
  rewrite Hr in H. destruct H as (_ & _ & Ht).
  set (p' := snd (unload h p)) in *. split.
  - destruct (unload_summary h p') as (_ & _ & _ & _ & H).
    destruct (fst (unload h p')) as [u|e]; [|exists e; reflexivity].
    destruct H as (_ & H & _). contradiction.
  - unfold initGui, self_iface, bind, read, call, ret, raise.
    destruct (iface p'); [|eexists; reflexivity].
    destruct (raises h (calls p') MainWindow); [eexists; reflexivity|].
    destruct (add_action_without_toolbar h
                ":/plugins/olsztyn_geoportal/icon.png"
                "Pobierz dane z Geoportalu Olsztyna" bound_run true true
                None None (Some main_window) (record_call MainWindow p') Ht)
      as (e & He).
    destruct (add_action _ _ _ _ _ _ _ _ _ _ _) as [[a|e'] p''];
      cbn [fst] in *; [discriminate | eexists; reflexivity].
Qed.

Lemma unloaded_plugin_is_spent_witness :
  (exists e, fst (unload quiet_qgis (snd (unload quiet_qgis loaded_plugin)))
             = Raises e)
  /\ (exists e, fst (initGui quiet_qgis
                       (snd (unload quiet_qgis loaded_plugin))) = Raises e).
Proof.
  apply (unloaded_plugin_is_spent quiet_qgis loaded_plugin). reflexivity.
Defined.

(** X15.  Whatever the host does: when [add_action] returns, the
    action it returns is the one it appended to [self.actions], built
    from the given icon path, text and parent; when it raises, at
    whichever of its calls, [self.actions] is as it was.  Toolbar and
    menu name are untouched either way. *)
Theorem add_action_appends_or_leaves (h : Host) (icon_path text0 : string)
    (callback : Callable) (enabled_flag add_to_menu add_to_toolbar : bool)
    (status_tip whats_this : option string) (parent0 : option QWidget)
    (p : Plugin) :
  match add_action h icon_path text0 callback enabled_flag add_to_menu
          add_to_toolbar status_tip whats_this parent0 p with
  | (Returns a, p') =>
      actions p' = actions p ++ [a]
      /\ icon a = {| fileName := icon_path |}
      /\ text a = text0 /\ parent a = parent0
      /\ toolbar p' = toolbar p /\ menu p' = menu p
  | (Raises _, p') =>
      actions p' = actions p /\ toolbar p' = toolbar p /\ menu p' = menu p
  end.
Proof.
  destruct (add_action_summary h icon_path text0 callback enabled_flag
              add_to_menu add_to_toolbar status_tip whats_this parent0 p)
    as ((_ & _ & Hm & Ht) & _ & H).
  destruct (add_action _ _ _ _ _ _ _ _ _ _ p) as [[a|e] p'];
    cbn [snd] in *; intuition.
Qed.

End Shell.

(** X16.  A dialog that [run] opens has the [iface] of the plugin
    object, which is never [None]: the branch of line 193 that leaves
    the view alone is not taken by a dialog opened through the plugin.
    Whatever entry is picked in it, against a host that raises nothing
    and loads the layer the four canvas calls are made, with EPSG:3857
    and the Olsztyn box. *)
Theorem plugin_dialog_moves_the_view (gui : OlsztynGeoportal.Host)
    (p : OlsztynGeoportal.Plugin) (dialog : State) (h : Host)
    (name : string) (d : LayerInfo) :
  alive gui p ->
  In (OlsztynGeoportal.DialogExec dialog)
     (plugin_calls_made (OlsztynGeoportal.run gui) p) ->
  quiet h -> always_valid h -> get layers name = Some d ->
  iface dialog = Some qgis_iface
  /\ layer_combo_items dialog = keys layers
  /\ filter is_canvas_call
       (calls_made (download_layer h) (set_layer_combo_text name dialog))
     = [IfaceMapCanvas;
        CanvasSetDestinationCrs (QgsCoordinateReferenceSystem h "EPSG:3857");
        CanvasSetExtent olsztyn_extent;
        CanvasRefresh;
        CanvasZoomToFeatureExtent olsztyn_extent].
Proof.
  intros Hp Hin Hq Hv Hd.
  destruct (alive_invariant gui p Hp) as (Hi & _).
  assert (dialog
          = OlsztynGeoportalDialog (OlsztynGeoportal.iface p)
              (OlsztynGeoportal.host_project_crs gui)
              (OlsztynGeoportal.host_project_layers gui)) as ->.
  { revert Hin. unfold plugin_calls_made, OlsztynGeoportal.run,
      OlsztynGeoportal.bind, OlsztynGeoportal.read, OlsztynGeoportal.call.
    destruct (OlsztynGeoportal.raises gui _ _); cbn [snd];
      cbn [OlsztynGeoportal.calls OlsztynGeoportal.record_call];
      rewrite skipn_length_app; intros [H|[]]; now injection H. }
  destruct (OlsztynGeoportal.iface p) as [[]|] eqn:Hi'; [clear Hi|congruence].
  split; [reflexivity|]. split; [reflexivity|].
  set (s := set_layer_combo_text name _).
  rewrite (calls_made_quiet h s name d Hq eq_refl Hd).
  unfold quiet_calls, loaded_calls, crs_test_calls, crs_set_calls, view_calls.
  rewrite Hv. subst s.
  cbn [iface set_layer_combo_text OlsztynGeoportalDialog __init__].
  destruct (crs_isValid _), (crs_is_empty _); reflexivity.
Qed.

Lemma plugin_dialog_moves_the_view_witness :
  iface new_dialog = Some qgis_iface
  /\ layer_combo_items new_dialog = keys layers
  /\ filter is_canvas_call
       (calls_made (download_layer stub_host)
          (set_layer_combo_text "Transport" new_dialog))
     = [IfaceMapCanvas;
        CanvasSetDestinationCrs
          (QgsCoordinateReferenceSystem stub_host "EPSG:3857");
        CanvasSetExtent olsztyn_extent;
        CanvasRefresh;
        CanvasZoomToFeatureExtent olsztyn_extent].
Proof.
  apply (plugin_dialog_moves_the_view quiet_qgis loaded_plugin new_dialog
           stub_host "Transport"
           {| type := "xyz";
              url := "https://tile.memomaps.de/tilegen/{z}/{x}/{y}.png";
              zmin := 0; zmax := 18; crs := "EPSG:3857";
              info := Some "Mapa komunikacji publicznej i transportu" |}).
  - exact loaded_plugin_alive.
  - vm_compute. tauto.
  - exact stub_host_quiet.
  - intros uri name provider. reflexivity.
  - reflexivity.
Defined.
